(** * messages-worker-sdk: a shallow embedding of the Go client library

    The library is a thin HTTP client: every public operation validates its
    arguments, sends at most one request through [doRequest] and decodes the
    answer with [parseResponse] (the health probe decodes by hand).

    The embedding follows the Go sources file by file:
    - Go packages used by the code ([time], [io], [http]) are small modules
      holding exactly the values the code touches;
    - Go's [(T, error)] results are values of [result T];
    - the network, the remote service and the JSON codec are a [Runtime]
      instance: the library is verified for every runtime, and evaluated on
      concrete ones in the examples;
    - the effects of a call are threaded through [NetState]: the state of
      the outside world, the log of round trips made so far, and the number
      of response bodies closed. *)

From Stdlib Require Import ZArith String List Bool Lia DecimalString.
Import ListNotations.

Local Open Scope Z_scope.
Local Open Scope string_scope.

(** ** Go's [int] and [%d] *)

(** [int] is a 64-bit two's complement integer; unary minus wraps around. *)
Definition int_min : Z := - 2 ^ 63.
Definition int_max : Z := 2 ^ 63 - 1.

Definition in_int (z : Z) : Prop := int_min <= z <= int_max.

Definition wrap_int (z : Z) : Z := (z + 2 ^ 63) mod 2 ^ 64 - 2 ^ 63.

Definition int_neg (z : Z) : Z := wrap_int (- z).

(** The [%d] verb of [fmt.Sprintf]: decimal digits, a leading [-] when
    negative. *)
Definition itoa (z : Z) : string := NilZero.string_of_int (Z.to_int z).

(** ** Errors *)

(** The dynamic types an [error] value has in this package:
    - [errorString]: [fmt.Errorf] with no [%w] verb;
    - [wrapError]: [fmt.Errorf("...: %w", err)], keeping the cause;
    - [apiError]: a [*APIError];
    - [foreignError]: an error made by the standard library (JSON codec,
      URL parsing, transport, body reader). *)
Inductive error : Type :=
| errorString (s : string)
| wrapError (msg : string) (err : error)
| apiError (StatusCode : Z) (Message : string)
| foreignError (s : string).

(** [func (e *APIError) Error() string] and the [Error] methods of the
    other dynamic types. *)
Fixpoint Error (e : error) : string :=
  match e with
  | errorString s => s
  | wrapError msg err => msg ++ ": " ++ Error err
  | apiError code m => "API error " ++ itoa code ++ ": " ++ m
  | foreignError s => s
  end.

(** [func IsAPIError(err error) bool]: a type assertion to [*APIError]; a
    wrapped [*APIError] does not pass it. *)
Definition IsAPIError (err : error) : bool :=
  match err with
  | apiError _ _ => true
  | _ => false
  end.

(** The errors produced by the local precondition checks are exactly the
    [fmt.Errorf] values without a cause. *)
Definition IsValidationError (err : error) : bool :=
  match err with
  | errorString _ => true
  | _ => false
  end.

(** Go's [(T, error)] pair, of which exactly one side is meaningful. *)
Inductive result (T : Type) : Type :=
| Ok (v : T)
| Err (e : error).
Arguments Ok {T} v.
Arguments Err {T} e.

Definition is_ok {T} (r : result T) : bool :=
  match r with
  | Ok _ => true
  | Err _ => false
  end.

Definition err_of {T} (r : result T) : option error :=
  match r with
  | Ok _ => None
  | Err e => Some e
  end.

(** ** The packages the client is built on *)

Module time.

(** [time.Duration] counts nanoseconds. *)
Definition Duration : Type := Z.
Definition Second : Duration := 1000000000.

End time.

Module io.

(** A [io.ReadCloser]: the bytes it delivers and how the stream ends
    ([None] is a clean end of file). *)
Record Reader : Type := mkReader
  { data : string;
    failure : option error }.

(** [io.ReadAll] returns what was read together with the error, if any. *)
Definition ReadAll (r : Reader) : string * option error :=
  (data r, failure r).

End io.

Module http.

Definition MethodGet : string := "GET".
Definition MethodPost : string := "POST".
Definition StatusOK : Z := 200.

Record Client : Type := mkClient
  { Timeout : time.Duration }.

(** The parts of a [*http.Request] the library sets. *)
Record Request (Ctx : Type) : Type := mkRequest
  { ctx : Ctx;
    Method : string;
    URL : string;
    ReqBody : option string;
    Header : list (string * string) }.
Arguments mkRequest {Ctx}.
Arguments ctx {Ctx}.
Arguments Method {Ctx}.
Arguments URL {Ctx}.
Arguments ReqBody {Ctx}.
Arguments Header {Ctx}.

(** [req.Header.Set(key, value)]. *)
Definition Header_Set {Ctx} (req : Request Ctx) (key value : string)
  : Request Ctx :=
  mkRequest (ctx req) (Method req) (URL req) (ReqBody req)
    ((key, value)
       :: filter (fun kv => negb (String.eqb (fst kv) key)) (Header req)).

Record Response : Type := mkResponse
  { StatusCode : Z;
    Body : io.Reader }.

End http.

(** ** The structs of the package *)

Inductive Priority : Type :=
| mkPriority (s : string).

Definition PriorityLow : Priority := mkPriority "low".
Definition PriorityMedium : Priority := mkPriority "medium".
Definition PriorityHigh : Priority := mkPriority "high".

Inductive Topic : Type :=
| mkTopic (s : string).

Definition TopicPullRequests : Topic := mkTopic "pullrequests".

(** The values an [interface{}] payload holds; [VOpaque] stands for the
    values the JSON encoder refuses (channels, functions). *)
#[local] Unset Elimination Schemes.
Inductive any : Type :=
| VNil
| VBool (b : bool)
| VInt (z : Z)
| VString (s : string)
| VSlice (l : list any)
| VMap (l : list (string * any))
| VOpaque.
#[local] Set Elimination Schemes.

Module MessageRequest.
Record t : Type := mk
  { ItemID : string;
    Priority_ : Priority;
    Topic_ : Topic;
    CallbackURL : string;
    ObjectBody : any }.
End MessageRequest.

Module MessageResponse.
Record t : Type := mk
  { ID : string;
    Status : string;
    ItemID : string;
    Priority_ : Priority;
    Topic_ : Topic }.
Definition zero : t := mk "" "" "" (mkPriority "") (mkTopic "").
End MessageResponse.

Module BulkMessageRequest.
Record t : Type := mk
  { Messages : list MessageRequest.t }.
End BulkMessageRequest.

Module BulkMessageResponse.
Record t : Type := mk
  { Status : string;
    Count : Z;
    Messages : list MessageResponse.t }.
Definition zero : t := mk "" 0 [].
End BulkMessageResponse.

Module WorkerInfo.
Record t : Type := mk
  { ID : string;
    QueueName : string;
    Status : string;
    StartedAt : string }.
End WorkerInfo.

Module PriorityWorkerInfo.
Record t : Type := mk
  { Count : Z;
    QueueDepth : Z;
    Workers : list WorkerInfo.t }.
Definition zero : t := mk 0 0 [].
End PriorityWorkerInfo.

Module WorkerStatusResponse.
Record t : Type := mk
  { TotalWorkers : Z;
    LowPriority : PriorityWorkerInfo.t;
    MediumPriority : PriorityWorkerInfo.t;
    HighPriority : PriorityWorkerInfo.t;
    AllWorkers : list WorkerInfo.t }.
Definition zero : t :=
  mk 0 PriorityWorkerInfo.zero PriorityWorkerInfo.zero
    PriorityWorkerInfo.zero [].
End WorkerStatusResponse.

Module ScaleWorkersResponse.
Record t : Type := mk
  { Status : string;
    Message : string;
    Priority_ : string;
    Count : Z;
    Action : string }.
Definition zero : t := mk "" "" "" 0 "".
End ScaleWorkersResponse.

Module RemoveAllWorkersResponse.
Record t : Type := mk
  { Status : string;
    Message : string;
    TotalRemoved : Z;
    Errors : list string }.
Definition zero : t := mk "" "" 0 [].
End RemoveAllWorkersResponse.

Module HealthResponse.
Record t : Type := mk
  { Status : string }.
End HealthResponse.

(** [Config] and [Client] of the package. *)
Record Config : Type := mkConfig
  { BaseURL : string;
    Timeout : time.Duration }.

Record Client : Type := mkClient
  { baseURL : string;
    httpClient : http.Client;
    timeout : time.Duration }.

(** The request bodies the operations pass to [doRequest]. *)
Inductive Payload : Type :=
| MessageBody (req : MessageRequest.t)
| BulkBody (req : BulkMessageRequest.t).

(** ** Construction of a client *)

Definition DefaultConfig : Config :=
  mkConfig "http://localhost:8083" (30 * time.Second).

(** [NewClient] writes the default timeout into the caller's [Config]: the
    result is the client together with the contents of the config the
    client was built from. *)
Definition NewClient' (config : option Config) : Client * Config :=
  let config :=
    match config with
    | None => DefaultConfig
    | Some cfg => cfg
    end in
  let config :=
    if (Timeout config =? 0)%Z
    then mkConfig (BaseURL config) (30 * time.Second)
    else config in
  (mkClient (BaseURL config) (http.mkClient (Timeout config)) (Timeout config),
   config).

Definition NewClient (config : option Config) : Client :=
  fst (NewClient' config).

Definition NewClientWithDefaults : Client := NewClient (Some DefaultConfig).

(** ** The world outside the library *)

(** The JSON decoder at one target type: [json.Unmarshal(body, &v)] started
    from the current contents [v] of the target. *)
Class Unmarshaler (T : Type) : Type :=
  json_Unmarshal : string -> T -> result T.

(** Everything the library calls and does not define:
    - [Ctx], the [context.Context] values, and [World], the state of the
      network and of the remote service;
    - [json_Marshal], the JSON encoder on the request bodies;
    - [NewRequest_error], the checks of [http.NewRequestWithContext] (nil
      context, malformed URL), answering the error it would return;
    - [Do], one round trip of the [Do] method of [http.Client]: it may fail (timeout,
      cancelled context, refused connection) or produce a response, and
      moves the world on. *)
Class Runtime : Type :=
  { Ctx : Type;
    World : Type;
    json_Marshal : Payload -> result string;
    NewRequest_error : Ctx -> string -> string -> option error;
    Do : http.Client -> http.Request Ctx -> World
         -> result http.Response * World;
    um_MessageResponse :: Unmarshaler MessageResponse.t;
    um_BulkMessageResponse :: Unmarshaler BulkMessageResponse.t;
    um_WorkerStatusResponse :: Unmarshaler WorkerStatusResponse.t;
    um_ScaleWorkersResponse :: Unmarshaler ScaleWorkersResponse.t;
    um_RemoveAllWorkersResponse :: Unmarshaler RemoveAllWorkersResponse.t }.

Section Library.

Context {RT : Runtime}.

(** One round trip: the request handed to the transport and its outcome. *)
Record Exchange : Type := mkExchange
  { sent : http.Request Ctx;
    outcome : result http.Response }.

Record NetState : Type := mkNetState
  { world : World;
    log : list Exchange;
    closed : nat }.

(** The requests issued so far, oldest first. *)
Definition requests (s : NetState) : list (http.Request Ctx) :=
  map sent (log s).

(** *** Computations with effects and errors *)

Definition IO (T : Type) : Type := NetState -> result T * NetState.

Definition ret {T} (v : T) : IO T := fun s => (Ok v, s).

Definition fail {T} (e : error) : IO T := fun s => (Err e, s).

(** [v, err := m; if err != nil { return nil, err }; k v]. *)
Definition bind {T U} (m : IO T) (k : T -> IO U) : IO U :=
  fun s =>
    match m s with
    | (Ok v, s') => k v s'
    | (Err e, s') => (Err e, s')
    end.

(** A deferred call: [d] runs when [m] returns, whatever it returns. *)
Definition defer {T} (d : NetState -> NetState) (m : IO T) : IO T :=
  fun s => let (r, s') := m s in (r, d s').

(** Lifting a pure fallible call, wrapping its error as [fmt.Errorf] with
    [%w] does. *)
Definition wrapping {T} (msg : string) (r : result T) : IO T :=
  match r with
  | Ok v => ret v
  | Err e => fail (wrapError msg e)
  end.

End Library.

Declare Scope io_scope.
Delimit Scope io_scope with io.
Notation "x <- m ;; k" := (bind m (fun x => k))
  (at level 61, m at next level, right associativity) : io_scope.
Local Open Scope io_scope.

Section Transport.

Context {RT : Runtime}.

(** [resp.Body.Close()]. *)
Definition Close (s : NetState) : NetState :=
  mkNetState (world s) (log s) (S (closed s)).

(** [c.httpClient.Do(req)], recorded in the log. *)
Definition httpClient_Do (c : Client) (req : http.Request Ctx)
  : IO http.Response :=
  fun s =>
    let (r, w) := Do (httpClient c) req (world s) in
    (r, mkNetState w (log s ++ [mkExchange req r]) (closed s)).

(** [http.NewRequestWithContext(ctx, method, url, reqBody)]. *)
Definition NewRequestWithContext (ctx : Ctx) (method url : string)
    (reqBody : option string) : result (http.Request Ctx) :=
  match NewRequest_error ctx method url with
  | Some e => Err e
  | None => Ok (http.mkRequest ctx method url reqBody [])
  end.

(** The first block of [doRequest]: the body, when there is one, is
    encoded to JSON. *)
Definition marshalBody (body : option Payload) : result (option string) :=
  match body with
  | None => Ok None
  | Some b =>
      match json_Marshal b with
      | Ok jsonData => Ok (Some jsonData)
      | Err e => Err e
      end
  end.

(** [func (c *Client) doRequest(ctx, method, path, body)]. *)
Definition doRequest (c : Client) (ctx : Ctx) (method path : string)
    (body : option Payload) : IO http.Response :=
  reqBody <- wrapping "failed to marshal request body" (marshalBody body) ;;
  req <- wrapping "failed to create request"
           (NewRequestWithContext ctx method (baseURL c ++ path) reqBody) ;;
  let req :=
    match body with
    | Some _ => http.Header_Set req "Content-Type" "application/json"
    | None => req
    end in
  fun s =>
    match httpClient_Do c req s with
    | (Ok resp, s') => (Ok resp, s')
    | (Err e, s') => (Err (wrapError "request failed" e), s')
    end.

(** [func (c *Client) parseResponse(resp, target)].  [target] is the
    pointer handed in ([None] for nil); the result carries what it points
    to when the function returns without error. *)
Definition parseResponse {T} `{Unmarshaler T} (c : Client)
    (resp : http.Response) (target : option T) : IO (option T) :=
  defer Close
    (let (body, err) := io.ReadAll (http.Body resp) in
     match err with
     | Some e => fail (wrapError "failed to read response body" e)
     | None =>
         if (http.StatusCode resp >=? 400)%Z
         then fail (apiError (http.StatusCode resp) body)
         else
           match target with
           | Some t =>
               match json_Unmarshal body t with
               | Ok v => ret (Some v)
               | Err e => fail (wrapError "failed to unmarshal response" e)
               end
           | None => ret None
           end
     end).

End Transport.

Section Operations.

Context {RT : Runtime}.

(** What a local variable [v] holds after [parseResponse(resp, &v)]: the
    decoded value, or its initial value when the pointer was nil. *)
Definition pointee {T} (initial : T) (after : option T) : T :=
  match after with
  | Some v => v
  | None => initial
  end.

(** *** messages.go *)

Definition PostMessage (c : Client) (ctx : Ctx)
    (req : option MessageRequest.t) : IO MessageResponse.t :=
  match req with
  | None => fail (errorString "message request cannot be nil")
  | Some r =>
      resp <- doRequest c ctx http.MethodPost "/api/v1/messages"
                (Some (MessageBody r)) ;;
      messageResp <- parseResponse c resp (Some MessageResponse.zero) ;;
      ret (pointee MessageResponse.zero messageResp)
  end.

Definition PostBulkMessages (c : Client) (ctx : Ctx)
    (req : option BulkMessageRequest.t) : IO BulkMessageResponse.t :=
  match req with
  | None => fail (errorString "bulk message request cannot be nil")
  | Some r =>
      if (Z.of_nat (length (BulkMessageRequest.Messages r)) =? 0)%Z
      then fail (errorString "no messages provided")
      else
        resp <- doRequest c ctx http.MethodPost "/api/v1/messages/bulk"
                  (Some (BulkBody r)) ;;
        bulkResp <- parseResponse c resp (Some BulkMessageResponse.zero) ;;
        ret (pointee BulkMessageResponse.zero bulkResp)
  end.

Definition PostMessageWithDefaults (c : Client) (ctx : Ctx)
    (itemID callbackURL : string) (objectBody : any)
  : IO MessageResponse.t :=
  PostMessage c ctx
    (Some (MessageRequest.mk itemID PriorityMedium TopicPullRequests
             callbackURL objectBody)).

Definition PostHighPriorityMessage (c : Client) (ctx : Ctx)
    (itemID callbackURL : string) (objectBody : any)
  : IO MessageResponse.t :=
  PostMessage c ctx
    (Some (MessageRequest.mk itemID PriorityHigh TopicPullRequests
             callbackURL objectBody)).

Definition PostLowPriorityMessage (c : Client) (ctx : Ctx)
    (itemID callbackURL : string) (objectBody : any)
  : IO MessageResponse.t :=
  PostMessage c ctx
    (Some (MessageRequest.mk itemID PriorityLow TopicPullRequests
             callbackURL objectBody)).

(** *** workers.go *)

Definition GetWorkerStatus (c : Client) (ctx : Ctx)
  : IO WorkerStatusResponse.t :=
  resp <- doRequest c ctx http.MethodGet "/api/v1/workers/status" None ;;
  statusResp <- parseResponse c resp (Some WorkerStatusResponse.zero) ;;
  ret (pointee WorkerStatusResponse.zero statusResp).

(** [fmt.Sprintf("/api/v1/workers/scale/%s?count=%d", priority, count)]. *)
Definition scalePath (priority : string) (count : Z) : string :=
  "/api/v1/workers/scale/" ++ priority ++ "?count=" ++ itoa count.

Definition ScaleWorkers (c : Client) (ctx : Ctx) (priority : string)
    (count : Z) : IO ScaleWorkersResponse.t :=
  if (priority =? "")%string
  then fail (errorString "priority is required")
  else
    if negb (priority =? "low")%string
       && negb (priority =? "medium")%string
       && negb (priority =? "high")%string
    then fail (errorString "priority must be 'low', 'medium', or 'high'")
    else
      if (count =? 0)%Z
      then fail (errorString "count cannot be 0")
      else
        resp <- doRequest c ctx http.MethodPost (scalePath priority count)
                  None ;;
        scaleResp <- parseResponse c resp (Some ScaleWorkersResponse.zero) ;;
        ret (pointee ScaleWorkersResponse.zero scaleResp).

Definition AddWorkers (c : Client) (ctx : Ctx) (priority : string)
    (count : Z) : IO ScaleWorkersResponse.t :=
  if (count <=? 0)%Z
  then fail (errorString "count must be greater than 0")
  else ScaleWorkers c ctx priority count.

Definition RemoveWorkers (c : Client) (ctx : Ctx) (priority : string)
    (count : Z) : IO ScaleWorkersResponse.t :=
  if (count <=? 0)%Z
  then fail (errorString "count must be greater than 0")
  else ScaleWorkers c ctx priority (int_neg count).

Definition RemoveAllWorkers (c : Client) (ctx : Ctx)
  : IO RemoveAllWorkersResponse.t :=
  resp <- doRequest c ctx http.MethodPost "/api/v1/workers/remove-all"
            None ;;
  removeResp <- parseResponse c resp (Some RemoveAllWorkersResponse.zero) ;;
  ret (pointee RemoveAllWorkersResponse.zero removeResp).

Definition GetWorkerCount (c : Client) (ctx : Ctx) (priority : string)
  : IO Z :=
  status <- GetWorkerStatus c ctx ;;
  if (priority =? "low")%string
  then ret (PriorityWorkerInfo.Count (WorkerStatusResponse.LowPriority status))
  else
    if (priority =? "medium")%string
    then ret (PriorityWorkerInfo.Count
                (WorkerStatusResponse.MediumPriority status))
    else
      if (priority =? "high")%string
      then ret (PriorityWorkerInfo.Count
                  (WorkerStatusResponse.HighPriority status))
      else fail (errorString ("invalid priority: " ++ priority)).

Definition GetTotalWorkerCount (c : Client) (ctx : Ctx) : IO Z :=
  status <- GetWorkerStatus c ctx ;;
  ret (WorkerStatusResponse.TotalWorkers status).

(** *** health.go *)

(** [fmt.Sprintf("health check failed with status %d", resp.StatusCode)]. *)
Definition healthMessage (code : Z) : string :=
  "health check failed with status " ++ itoa code.

Definition CheckHealth (c : Client) (ctx : Ctx) : IO HealthResponse.t :=
  resp <- doRequest c ctx http.MethodGet "/health" None ;;
  defer Close
    (if negb (http.StatusCode resp =? http.StatusOK)%Z
     then fail (apiError (http.StatusCode resp)
                  (healthMessage (http.StatusCode resp)))
     else ret (HealthResponse.mk "OK")).

Definition IsHealthy (c : Client) (ctx : Ctx) (s : NetState)
  : bool * NetState :=
  let (r, s') := CheckHealth c ctx s in
  (is_ok r, s').

Definition Ping (c : Client) (ctx : Ctx) : IO HealthResponse.t :=
  CheckHealth c ctx.

(** *** The operations that return an error, as one type *)

Inductive Call : Type :=
| CallPostMessage (req : option MessageRequest.t)
| CallPostBulkMessages (req : option BulkMessageRequest.t)
| CallPostMessageWithDefaults (itemID callbackURL : string) (body : any)
| CallPostHighPriorityMessage (itemID callbackURL : string) (body : any)
| CallPostLowPriorityMessage (itemID callbackURL : string) (body : any)
| CallGetWorkerStatus
| CallScaleWorkers (priority : string) (count : Z)
| CallAddWorkers (priority : string) (count : Z)
| CallRemoveWorkers (priority : string) (count : Z)
| CallRemoveAllWorkers
| CallGetWorkerCount (priority : string)
| CallGetTotalWorkerCount
| CallCheckHealth
| CallPing.

(** The two operations that decode the response themselves. *)
Definition is_health_call (op : Call) : bool :=
  match op with
  | CallCheckHealth | CallPing => true
  | _ => false
  end.

(** The error a computation returns, with the state it leaves. *)
Definition error_of {T} (m : IO T) (s : NetState)
  : option error * NetState :=
  let (r, s') := m s in (err_of r, s').

Definition call_error (c : Client) (ctx : Ctx) (op : Call) (s : NetState)
  : option error * NetState :=
  match op with
  | CallPostMessage req => error_of (PostMessage c ctx req) s
  | CallPostBulkMessages req => error_of (PostBulkMessages c ctx req) s
  | CallPostMessageWithDefaults i u b =>
      error_of (PostMessageWithDefaults c ctx i u b) s
  | CallPostHighPriorityMessage i u b =>
      error_of (PostHighPriorityMessage c ctx i u b) s
  | CallPostLowPriorityMessage i u b =>
      error_of (PostLowPriorityMessage c ctx i u b) s
  | CallGetWorkerStatus => error_of (GetWorkerStatus c ctx) s
  | CallScaleWorkers p n => error_of (ScaleWorkers c ctx p n) s
  | CallAddWorkers p n => error_of (AddWorkers c ctx p n) s
  | CallRemoveWorkers p n => error_of (RemoveWorkers c ctx p n) s
  | CallRemoveAllWorkers => error_of (RemoveAllWorkers c ctx) s
  | CallGetWorkerCount p => error_of (GetWorkerCount c ctx p) s
  | CallGetTotalWorkerCount => error_of (GetTotalWorkerCount c ctx) s
  | CallCheckHealth => error_of (CheckHealth c ctx) s
  | CallPing => error_of (Ping c ctx) s
  end.

End Operations.

(** ** A test double *)

(** The counterpart of the [httptest] servers of [client_test.go]: a
    runtime whose transport answers every request with [respond], whose
    world counts the round trips served, whose request constructor refuses
    the nil context only, and whose JSON decoder understands the empty
    object (which leaves the target as it is) and nothing else. *)
Definition stubUnmarshal {T : Type} : Unmarshaler T :=
  fun body target =>
    if (body =? "{}")%string
    then Ok target
    else Err (foreignError "invalid character looking for beginning of value").

Definition stubRuntime
    (respond : http.Request (option unit) -> result http.Response)
  : Runtime :=
  {| Ctx := option unit;
     World := nat;
     json_Marshal := fun _ => Ok "{}";
     NewRequest_error := fun ctx _ _ =>
       match ctx with
       | None => Some (foreignError "net/http: nil Context")
       | Some _ => None
       end;
     Do := fun _ req w => (respond req, S w);
     um_MessageResponse := stubUnmarshal;
     um_BulkMessageResponse := stubUnmarshal;
     um_WorkerStatusResponse := stubUnmarshal;
     um_ScaleWorkersResponse := stubUnmarshal;
     um_RemoveAllWorkersResponse := stubUnmarshal |}.

(** A server that answers every request with the given status and body. *)
Definition serverReplying (status : Z) (body : string) : Runtime :=
  stubRuntime
    (fun _ => Ok (http.mkResponse status (io.mkReader body None))).

(** A server whose answers break off while the body is read. *)
Definition serverCutOff (status : Z) (partial : string) : Runtime :=
  stubRuntime
    (fun _ =>
       Ok (http.mkResponse status
             (io.mkReader partial (Some (foreignError "unexpected EOF"))))).

(** [context.Background()] and the state before any call. *)
Definition Background : option unit := Some tt.

Definition initial (RT : Runtime) (w : World) : NetState :=
  mkNetState w [] 0.

Definition testClient : Client :=
  NewClient (Some (mkConfig "http://127.0.0.1:8083" (5 * time.Second))).

(** ** The priorities the service knows *)

Definition priorities : list string := ["low"; "medium"; "high"].

Definition known_priority (p : string) : bool :=
  existsb (String.eqb p) priorities.

(** ** Vocabulary of the properties *)

Section Vocabulary.

Context {RT : Runtime}.

Variables (c : Client) (ctx : Ctx).

(** The state after one round trip with outcome [out]. *)
Definition after_round_trip (s : NetState) (req : http.Request Ctx)
    (out : result http.Response) (w : World) : NetState :=
  mkNetState w (log s ++ [mkExchange req out]) (closed s).

(** The request [doRequest] builds when there is no body. *)
Definition bare_request (method path : string) : http.Request Ctx :=
  http.mkRequest ctx method (baseURL c ++ path) None [].

(** The shape shared by all JSON operations: one request, then the
    decoder on its response. *)
Definition roundTripJSON {T} `{Unmarshaler T} (method path : string)
    (body : option Payload) (zero : T) : IO T :=
  resp <- doRequest c ctx method path body ;;
  v <- parseResponse c resp (Some zero) ;;
  ret (pointee zero v).

(** What it takes for an operation to return [APIError{code, msg}] from
    state [s] to state [s']: a response with that status came back in the
    round trip just made. *)
Definition from_response (s s' : NetState) (code : Z) : Prop :=
  exists req resp,
    log s' = (log s ++ [mkExchange req (Ok resp)])%list
    /\ http.StatusCode resp = code.

(** The message of the check that rejects [ScaleWorkers c ctx p n], in the
    order the checks are made. *)
Definition scaleRejection (p : string) : string :=
  if (p =? "")%string
  then "priority is required"
  else
    if known_priority p
    then "count cannot be 0"
    else "priority must be 'low', 'medium', or 'high'".

End Vocabulary.

(** The runtimes and requests of the examples. *)
Definition ok200 : Runtime := serverReplying 200 "{}".
Definition created201 : Runtime := serverReplying 201 "OK".
Definition down500 : Runtime := serverReplying 500 "Service Unavailable".
Definition cutOff500 : Runtime := serverCutOff 500 "Service Unav".

Definition statusRequest : http.Request (option unit) :=
  http.mkRequest Background "GET"
    "http://127.0.0.1:8083/api/v1/workers/status" None [].

Definition healthRequest : http.Request (option unit) :=
  http.mkRequest Background "GET" "http://127.0.0.1:8083/health" None [].

(** ** Vocabulary of the properties of whole operations *)

Section Effects.

Context {RT : Runtime}.

Variables (c : Client) (ctx : Ctx).

(** The request [doRequest] sends for a method, a path and an encoded
    body: the content type is set exactly when there is a body. *)
Definition request_sent (method path : string) (reqBody : option string)
  : http.Request Ctx :=
  http.mkRequest ctx method (baseURL c ++ path) reqBody
    match reqBody with
    | Some _ => [("Content-Type", "application/json")]
    | None => []
    end.

(** The state once a round trip is over and the body of the response, when
    one came back, has been closed. *)
Definition settled (s : NetState) (req : http.Request Ctx)
    (out : result http.Response) (w : World) : NetState :=
  match out with
  | Ok _ => Close (after_round_trip s req out w)
  | Err _ => after_round_trip s req out w
  end.

(** An operation either leaves the state as it is, or makes one round trip
    with the request of its endpoint and settles it. *)
Definition one_exchange (method path : string) (body : option Payload)
    (s s' : NetState) : Prop :=
  s' = s
  \/ exists reqBody out w,
       marshalBody body = Ok reqBody
       /\ Do (httpClient c) (request_sent method path reqBody) (world s)
          = (out, w)
       /\ s' = settled s (request_sent method path reqBody) out w.

(** The five prefixes under which the library wraps the errors of the
    standard library. *)
Definition wrap_messages : list string :=
  ["failed to marshal request body";
   "failed to create request";
   "request failed";
   "failed to read response body";
   "failed to unmarshal response"].

(** The errors of the library's taxonomy: a validation error, a wrapped
    error under one of the five prefixes, or an [APIError]. *)
Definition classified (e : error) : bool :=
  match e with
  | errorString _ => true
  | wrapError msg _ => existsb (String.eqb msg) wrap_messages
  | apiError _ _ => true
  | foreignError _ => false
  end.

End Effects.

(** Method and path of the request each operation makes, read off the
    calls of [doRequest]. *)
Definition endpoint (op : Call) : string * string :=
  match op with
  | CallPostMessage _
  | CallPostMessageWithDefaults _ _ _
  | CallPostHighPriorityMessage _ _ _
  | CallPostLowPriorityMessage _ _ _ => ("POST", "/api/v1/messages")
  | CallPostBulkMessages _ => ("POST", "/api/v1/messages/bulk")
  | CallGetWorkerStatus
  | CallGetWorkerCount _
  | CallGetTotalWorkerCount => ("GET", "/api/v1/workers/status")
  | CallScaleWorkers p n
  | CallAddWorkers p n => ("POST", scalePath p n)
  | CallRemoveWorkers p n => ("POST", scalePath p (int_neg n))
  | CallRemoveAllWorkers => ("POST", "/api/v1/workers/remove-all")
  | CallCheckHealth
  | CallPing => ("GET", "/health")
  end.

(** The body each operation hands to [doRequest]. *)
Definition payload (op : Call) : option Payload :=
  match op with
  | CallPostMessage req => option_map MessageBody req
  | CallPostBulkMessages req => option_map BulkBody req
  | CallPostMessageWithDefaults i u b =>
      Some (MessageBody
              (MessageRequest.mk i PriorityMedium TopicPullRequests u b))
  | CallPostHighPriorityMessage i u b =>
      Some (MessageBody
              (MessageRequest.mk i PriorityHigh TopicPullRequests u b))
  | CallPostLowPriorityMessage i u b =>
      Some (MessageBody
              (MessageRequest.mk i PriorityLow TopicPullRequests u b))
  | _ => None
  end.

(** The operations whose argument checks all come before the request. *)
Definition validates_first (op : Call) : bool :=
  match op with
  | CallGetWorkerCount _ => false
  | _ => true
  end.

(** The bucket [GetWorkerCount] reads for a known priority. *)
Definition bucket (p : string) (status : WorkerStatusResponse.t)
  : PriorityWorkerInfo.t :=
  if (p =? "low")%string
  then WorkerStatusResponse.LowPriority status
  else
    if (p =? "medium")%string
    then WorkerStatusResponse.MediumPriority status
    else WorkerStatusResponse.HighPriority status.

(** A runtime whose JSON encoder refuses every body. *)
Definition unencodable : Runtime :=
  {| Ctx := option unit;
     World := nat;
     json_Marshal := fun _ =>
       Err (foreignError "json: unsupported type: chan int");
     NewRequest_error := fun _ _ _ => None;
     Do := fun _ _ w =>
       (Ok (http.mkResponse 200 (io.mkReader "{}" None)), S w);
     um_MessageResponse := stubUnmarshal;
     um_BulkMessageResponse := stubUnmarshal;
     um_WorkerStatusResponse := stubUnmarshal;
     um_ScaleWorkersResponse := stubUnmarshal;
     um_RemoveAllWorkersResponse := stubUnmarshal |}.

(** A server that cannot be reached: every round trip fails. *)
Definition unreachable : Runtime :=
  stubRuntime (fun _ => Err (foreignError "connection refused")).

Definition sampleMessage : MessageRequest.t :=
  MessageRequest.mk "test-123" PriorityHigh TopicPullRequests
    "https://example.com/callback" (VMap [("test", VBool true)]).

(** * Properties *)

(** ** Construction *)

Lemma NewClient_nil :
  NewClient None
  = mkClient "http://localhost:8083" (http.mkClient (30 * time.Second))
      (30 * time.Second).
Proof. reflexivity. Qed.

Lemma NewClient_baseURL (cfg : Config) :
  baseURL (NewClient (Some cfg)) = BaseURL cfg.
Proof.
  unfold NewClient, NewClient'; simpl.
  destruct (Timeout cfg =? 0)%Z; reflexivity.
Qed.

(** C10. [NewClient] on a non-nil config fills in the timeout and nothing
    else: a zero [Timeout] becomes 30 seconds (in the client, in its
    [http.Client] and in the caller's config), while the base URL is taken
    as it is, the empty string included; the localhost URL appears only for
    the nil config. *)
Theorem NewClient_defaults_timeout_not_baseURL :
  (forall url : string,
      let c := NewClient (Some (mkConfig url 0)) in
      timeout c = 30 * time.Second
      /\ http.Timeout (httpClient c) = 30 * time.Second
      /\ baseURL c = url
      /\ snd (NewClient' (Some (mkConfig url 0)))
         = mkConfig url (30 * time.Second))
  /\ (forall t : time.Duration, baseURL (NewClient (Some (mkConfig "" t))) = "")
  /\ (forall cfg : Config, baseURL (NewClient (Some cfg)) = BaseURL cfg)
  /\ baseURL (NewClient None) = "http://localhost:8083".
Proof.
  repeat split.
  - intro t. apply (NewClient_baseURL (mkConfig "" t)).
  - apply NewClient_baseURL.
Qed.

(** ** Validation before any request *)

Section Validation.

Context {RT : Runtime}.

Variables (c : Client) (ctx : Ctx).

Lemma known_priority_false (p : string) :
  known_priority p = false ->
  (p =? "low")%string = false
  /\ (p =? "medium")%string = false
  /\ (p =? "high")%string = false.
Proof.
  unfold known_priority, priorities; simpl.
  destruct (p =? "low")%string, (p =? "medium")%string,
    (p =? "high")%string; simpl; intro H; try discriminate; auto.
Qed.

Lemma ScaleWorkers_unknown_priority (p : string) (n : Z) (s : NetState) :
  known_priority p = false ->
  ScaleWorkers c ctx p n s = (Err (errorString (scaleRejection p)), s).
Proof.
  intro H. unfold scaleRejection. rewrite H.
  destruct (known_priority_false p H) as (Hl & Hm & Hh).
  unfold ScaleWorkers. rewrite Hl, Hm, Hh; simpl.
  destruct (p =? "")%string; reflexivity.
Qed.

Lemma ScaleWorkers_zero (p : string) (s : NetState) :
  ScaleWorkers c ctx p 0 s = (Err (errorString (scaleRejection p)), s).
Proof.
  destruct (known_priority p) eqn:H.
  - unfold scaleRejection, ScaleWorkers. rewrite H.
    unfold known_priority, priorities in H; simpl in H.
    destruct (p =? "")%string; [reflexivity|].
    destruct (p =? "low")%string, (p =? "medium")%string,
      (p =? "high")%string; simpl in *; try discriminate; reflexivity.
  - now apply ScaleWorkers_unknown_priority.
Qed.

(** C4. [ScaleWorkers] rejects a priority outside low/medium/high (the
    empty string included) and a zero count with a validation error, and
    leaves the network state untouched: no request has been issued. *)
Theorem ScaleWorkers_validates_before_sending
    (p : string) (n : Z) (s : NetState) :
  known_priority p = false \/ n = 0 ->
  exists msg : string,
    ScaleWorkers c ctx p n s = (Err (errorString msg), s)
    /\ msg = scaleRejection p
    /\ IsValidationError (errorString msg) = true
    /\ requests (snd (ScaleWorkers c ctx p n s)) = requests s.
Proof.
  intro H. exists (scaleRejection p).
  assert (E : ScaleWorkers c ctx p n s
              = (Err (errorString (scaleRejection p)), s)).
  { destruct H as [H | ->].
    - now apply ScaleWorkers_unknown_priority.
    - apply ScaleWorkers_zero. }
  rewrite E. repeat split.
Qed.

(** C6. [PostMessage] on a nil request, and [PostBulkMessages] on a nil
    request or on one with no messages, fail with a validation error and
    leave the network state untouched. *)
Theorem PostMessage_PostBulkMessages_reject_empty (s : NetState) :
  PostMessage c ctx None s
  = (Err (errorString "message request cannot be nil"), s)
  /\ PostBulkMessages c ctx None s
     = (Err (errorString "bulk message request cannot be nil"), s)
  /\ PostBulkMessages c ctx (Some (BulkMessageRequest.mk [])) s
     = (Err (errorString "no messages provided"), s).
Proof. repeat split. Qed.

Lemma int_neg_positive (n : Z) : 0 < n <= int_max -> int_neg n = - n.
Proof.
  unfold int_neg, wrap_int, int_max. intros [Hlo Hhi].
  rewrite Z.mod_small; lia.
Qed.

(** C5. [AddWorkers] and [RemoveWorkers] reject every count [n <= 0] with a
    validation error before anything is sent; for [n > 0] they are
    [ScaleWorkers] at [n] and at [- n]. *)
Theorem AddWorkers_RemoveWorkers_delegate
    (p : string) (n : Z) (s : NetState) :
  in_int n ->
  (n <= 0 ->
   AddWorkers c ctx p n s
   = (Err (errorString "count must be greater than 0"), s)
   /\ RemoveWorkers c ctx p n s
      = (Err (errorString "count must be greater than 0"), s))
  /\ (0 < n ->
      AddWorkers c ctx p n s = ScaleWorkers c ctx p n s
      /\ RemoveWorkers c ctx p n s = ScaleWorkers c ctx p (- n) s).
Proof.
  intros [_ Hmax]. unfold AddWorkers, RemoveWorkers. split; intro Hn.
  - apply Z.leb_le in Hn. rewrite Hn. split; reflexivity.
  - rewrite int_neg_positive by lia.
    destruct (Z.leb_spec n 0); [lia|]. split; reflexivity.
Qed.

End Validation.

(** ** The transport wrapper and the decoder *)

Section Decoding.

Context {RT : Runtime}.

Variables (c : Client) (ctx : Ctx).

(** [doRequest] without a body, step by step. *)
Lemma doRequest_no_body (method path : string) (s : NetState) :
  doRequest c ctx method path None s
  = match NewRequest_error ctx method (baseURL c ++ path) with
    | Some e => (Err (wrapError "failed to create request" e), s)
    | None =>
        let req := bare_request c ctx method path in
        match Do (httpClient c) req (world s) with
        | (Ok resp, w) => (Ok resp, after_round_trip s req (Ok resp) w)
        | (Err e, w) =>
            (Err (wrapError "request failed" e),
             after_round_trip s req (Err e) w)
        end
    end.
Proof.
  unfold doRequest, bind, wrapping, NewRequestWithContext; simpl.
  destruct (NewRequest_error ctx method (baseURL c ++ path)); [reflexivity|].
  unfold httpClient_Do, ret, bare_request, after_round_trip; simpl.
  destruct (Do _ _ _) as [[resp | e] w]; reflexivity.
Qed.

(** A response obtained from [doRequest] is the outcome of the one round
    trip it added to the log. *)
Lemma doRequest_Ok (method path : string) (body : option Payload)
    (s s' : NetState) (resp : http.Response) :
  doRequest c ctx method path body s = (Ok resp, s') ->
  exists req, log s' = (log s ++ [mkExchange req (Ok resp)])%list
              /\ closed s' = closed s.
Proof.
  unfold doRequest, bind, wrapping.
  destruct (marshalBody body) as [reqBody | e]; simpl; [|discriminate].
  destruct (NewRequestWithContext _ _ _ _) as [req | e]; simpl;
    [|discriminate].
  unfold httpClient_Do.
  destruct (Do _ _ _) as [[r | e] w]; [|discriminate].
  intro H; injection H as <- <-. eexists; split; reflexivity.
Qed.

(** Every error of [doRequest] is a wrapped one. *)
Lemma doRequest_Err (method path : string) (body : option Payload)
    (s s' : NetState) (e : error) :
  doRequest c ctx method path body s = (Err e, s') ->
  exists msg cause, e = wrapError msg cause.
Proof.
  unfold doRequest, bind, wrapping.
  destruct (marshalBody body) as [reqBody | e0]; simpl.
  2:{ intro H; injection H as <- _; eauto. }
  destruct (NewRequestWithContext _ _ _ _) as [req | e0]; simpl.
  2:{ intro H; injection H as <- _; eauto. }
  unfold httpClient_Do.
  destruct (Do _ _ _) as [[r | e0] w]; [discriminate|].
  intro H; injection H as <- _; eauto.
Qed.

(** X16. When the body of a response cannot be read, [parseResponse]
    returns the reader's error wrapped, whatever the status code and the
    target are: the status code is not even looked at, and the body is
    still closed. *)
Lemma parseResponse_read_failure {T} `{Unmarshaler T}
    (resp : http.Response) (target : option T) (s : NetState) (e : error) :
  io.failure (http.Body resp) = Some e ->
  parseResponse c resp target s
  = (Err (wrapError "failed to read response body" e), Close s).
Proof.
  intro E. unfold parseResponse, defer, io.ReadAll. rewrite E. reflexivity.
Qed.

(** An [APIError] leaves [parseResponse] only on a status of 400 or more,
    and carries that status. *)
Lemma parseResponse_apiError {T} `{Unmarshaler T}
    (resp : http.Response) (target : option T) (s s' : NetState)
    (code : Z) (msg : string) :
  parseResponse c resp target s = (Err (apiError code msg), s') ->
  code = http.StatusCode resp /\ 400 <= code /\ log s' = log s.
Proof.
  unfold parseResponse, defer, io.ReadAll; simpl.
  destruct (io.failure (http.Body resp)); [discriminate|].
  destruct (Z.geb_spec (http.StatusCode resp) 400) as [Hge | Hlt].
  - intro E; injection E as <- _ <-. repeat split; lia.
  - destruct target as [t|]; [|discriminate].
    unfold fail, ret. destruct (json_Unmarshal _ t); discriminate.
Qed.

Lemma roundTripJSON_apiError {T} `{Unmarshaler T} (method path : string)
    (body : option Payload) (zero : T) (s s' : NetState)
    (code : Z) (msg : string) :
  roundTripJSON c ctx method path body zero s = (Err (apiError code msg), s') ->
  from_response s s' code /\ 400 <= code.
Proof.
  unfold roundTripJSON, bind at 1.
  destruct (doRequest c ctx method path body s) as [[resp | e] s1] eqn:Ereq.
  - unfold bind.
    destruct (parseResponse c resp (Some zero) s1) as [[v | e] s2] eqn:Eparse.
    + discriminate.
    + intro E; injection E as -> ->.
      apply parseResponse_apiError in Eparse as (-> & Hge & Hlog).
      apply doRequest_Ok in Ereq as (req & Hreq & _).
      split; [|assumption].
      exists req, resp. rewrite Hlog. auto.
  - intro E; injection E as -> _.
    apply doRequest_Err in Ereq as (m & cause & Habs). discriminate.
Qed.

End Decoding.

Section Classification.

Context {RT : Runtime}.

Variables (c : Client) (ctx : Ctx).

Lemma parseResponse_log {T} `{Unmarshaler T}
    (resp : http.Response) (target : option T) (s : NetState) :
  log (snd (parseResponse c resp target s)) = log s.
Proof.
  unfold parseResponse, defer.
  destruct (io.ReadAll (http.Body resp)) as [body [e|]]; [reflexivity|].
  destruct (http.StatusCode resp >=? 400)%Z; [reflexivity|].
  destruct target as [t|]; [|reflexivity].
  destruct (json_Unmarshal body t); reflexivity.
Qed.

(** C3, as the code has it. Once the body has been read, the decoder
    classifies by the status code alone: 400 and above give
    [APIError{status, raw body}] whatever the body and the target are, the
    JSON decoder not being consulted; below 400 the body is decoded into
    the target when there is one, a decoding failure being wrapped, and the
    call succeeds without decoding when there is none. *)
Theorem parseResponse_classifies_by_status {T} `{Unmarshaler T}
    (resp : http.Response) (body : string) (s : NetState) :
  io.ReadAll (http.Body resp) = (body, None) ->
  (400 <= http.StatusCode resp ->
   forall target : option T,
     parseResponse c resp target s
     = (Err (apiError (http.StatusCode resp) body), Close s))
  /\ (http.StatusCode resp < 400 ->
      forall (t : T) (e : error),
        json_Unmarshal body t = Err e ->
        parseResponse c resp (Some t) s
        = (Err (wrapError "failed to unmarshal response" e), Close s))
  /\ (http.StatusCode resp < 400 ->
      forall t v : T,
        json_Unmarshal body t = Ok v ->
        parseResponse c resp (Some t) s = (Ok (Some v), Close s))
  /\ (http.StatusCode resp < 400 ->
      parseResponse c resp (@None T) s = (Ok None, Close s)).
Proof.
  intro Hread. unfold parseResponse, defer. rewrite Hread.
  repeat split; intro Hcode.
  - intro target. destruct (Z.geb_spec (http.StatusCode resp) 400); [|lia].
    reflexivity.
  - intros t e Hdec. destruct (Z.geb_spec (http.StatusCode resp) 400); [lia|].
    rewrite Hdec. reflexivity.
  - intros t v Hdec. destruct (Z.geb_spec (http.StatusCode resp) 400); [lia|].
    rewrite Hdec. reflexivity.
  - destruct (Z.geb_spec (http.StatusCode resp) 400); [lia|]. reflexivity.
Qed.

(** C7. When the transport hands back a response to the health probe,
    [CheckHealth] looks at the status code only: 200 gives the fixed status
    [OK]; any other code gives [APIError] with that code and a message made
    from the code. Neither the body nor the JSON decoder takes part. *)
Theorem CheckHealth_by_status
    (s : NetState) (resp : http.Response) (w : World) :
  NewRequest_error ctx "GET" (baseURL c ++ "/health") = None ->
  Do (httpClient c) (bare_request c ctx "GET" "/health") (world s)
  = (Ok resp, w) ->
  let s' :=
    Close (after_round_trip s (bare_request c ctx "GET" "/health")
             (Ok resp) w) in
  (http.StatusCode resp = 200 ->
   CheckHealth c ctx s = (Ok (HealthResponse.mk "OK"), s'))
  /\ (http.StatusCode resp <> 200 ->
      CheckHealth c ctx s
      = (Err (apiError (http.StatusCode resp)
                ("health check failed with status "
                 ++ itoa (http.StatusCode resp))),
         s')).
Proof.
  intros Hreq Hdo s'. unfold CheckHealth, bind.
  rewrite doRequest_no_body.
  change http.MethodGet with "GET". rewrite Hreq. cbv zeta. rewrite Hdo.
  unfold defer, http.StatusOK.
  split; intro Hcode.
  - rewrite Hcode. reflexivity.
  - destruct (Z.eqb_spec (http.StatusCode resp) 200); [contradiction|].
    reflexivity.
Qed.

(** C8. [IsHealthy] answers [true] exactly when the [CheckHealth] call it
    makes returns no error, in every runtime and from every state; it
    leaves the state [CheckHealth] leaves. *)
Theorem IsHealthy_iff_CheckHealth_succeeds (s : NetState) :
  (fst (IsHealthy c ctx s) = true
   <-> err_of (fst (CheckHealth c ctx s)) = None)
  /\ snd (IsHealthy c ctx s) = snd (CheckHealth c ctx s).
Proof.
  unfold IsHealthy.
  destruct (CheckHealth c ctx s) as [[h | e] s']; simpl.
  - repeat split.
  - repeat split; discriminate.
Qed.

Lemma roundTripJSON_requests {T} `{Unmarshaler T}
    (method path : string) (zero : T) (s : NetState) :
  NewRequest_error ctx method (baseURL c ++ path) = None ->
  requests (snd (roundTripJSON c ctx method path None zero s))
  = (requests s ++ [bare_request c ctx method path])%list.
Proof.
  intro Hreq. unfold roundTripJSON, bind at 1.
  rewrite doRequest_no_body, Hreq. cbv zeta.
  destruct (Do _ _ _) as [[resp | e] w].
  - unfold bind, requests.
    pose proof (parseResponse_log resp (Some zero)
                  (after_round_trip s (bare_request c ctx method path)
                     (Ok resp) w)) as Hlog.
    destruct (parseResponse _ _ _ _) as [[v | e] s2]; simpl in *;
      rewrite Hlog, map_app; reflexivity.
  - unfold requests; simpl. rewrite map_app. reflexivity.
Qed.

End Classification.

Section Errors.

Context {RT : Runtime}.

Variables (c : Client) (ctx : Ctx).

(** C1, as the code has it. On a priority outside low/medium/high,
    [GetWorkerCount] still fetches the worker status first: it returns the
    error of that fetch when it fails, and the validation error only when
    the fetch succeeded; the GET for the status has been issued whenever
    the request could be built. *)
Theorem GetWorkerCount_validates_after_fetch (p : string) (s : NetState) :
  known_priority p = false ->
  GetWorkerCount c ctx p s
  = match GetWorkerStatus c ctx s with
    | (Ok _, s') => (Err (errorString ("invalid priority: " ++ p)), s')
    | (Err e, s') => (Err e, s')
    end
  /\ (NewRequest_error ctx "GET" (baseURL c ++ "/api/v1/workers/status")
      = None ->
      requests (snd (GetWorkerCount c ctx p s))
      = (requests s
         ++ [bare_request c ctx "GET" "/api/v1/workers/status"])%list).
Proof.
  intro Hp. destruct (known_priority_false p Hp) as (Hl & Hm & Hh).
  assert (E : GetWorkerCount c ctx p s
              = match GetWorkerStatus c ctx s with
                | (Ok _, s') =>
                    (Err (errorString ("invalid priority: " ++ p)), s')
                | (Err e, s') => (Err e, s')
                end).
  { unfold GetWorkerCount, bind.
    destruct (GetWorkerStatus c ctx s) as [[status | e] s']; [|reflexivity].
    rewrite Hl, Hm, Hh. reflexivity. }
  split; [exact E|].
  intro Hreq. rewrite E.
  pose proof (roundTripJSON_requests c ctx "GET" "/api/v1/workers/status"
                WorkerStatusResponse.zero s Hreq) as Hlog.
  change (roundTripJSON c ctx "GET" "/api/v1/workers/status" None
            WorkerStatusResponse.zero)
    with (GetWorkerStatus c ctx) in Hlog.
  destruct (GetWorkerStatus c ctx s) as [[status | e] s']; exact Hlog.
Qed.

Lemma error_of_Some {T} (m : IO T) (s s' : NetState) (e : error) :
  error_of m s = (Some e, s') -> m s = (Err e, s').
Proof.
  unfold error_of. destruct (m s) as [[v | e0] s0]; simpl; [discriminate|].
  intro H; injection H as -> ->. reflexivity.
Qed.

Lemma ScaleWorkers_apiError (p : string) (n : Z) (s s' : NetState)
    (code : Z) (msg : string) :
  ScaleWorkers c ctx p n s = (Err (apiError code msg), s') ->
  from_response s s' code /\ 400 <= code.
Proof.
  unfold ScaleWorkers.
  destruct (p =? "")%string; [discriminate|].
  destruct (negb _ && negb _ && negb _); [discriminate|].
  destruct (n =? 0)%Z; [discriminate|].
  apply (roundTripJSON_apiError c ctx).
Qed.

Lemma GetWorkerStatus_then_apiError {T} (k : WorkerStatusResponse.t -> IO T)
    (s s' : NetState) (code : Z) (msg : string) :
  (forall status s0, k status s0 <> (Err (apiError code msg), s')) ->
  bind (GetWorkerStatus c ctx) k s = (Err (apiError code msg), s') ->
  from_response s s' code /\ 400 <= code.
Proof.
  intros Hk. unfold bind.
  destruct (GetWorkerStatus c ctx s) as [[status | e] s1] eqn:E.
  - intro Habs. now apply Hk in Habs.
  - intro H; injection H as -> ->.
    apply (roundTripJSON_apiError c ctx) in E. exact E.
Qed.

Lemma CheckHealth_apiError (s s' : NetState) (code : Z) (msg : string) :
  CheckHealth c ctx s = (Err (apiError code msg), s') ->
  from_response s s' code /\ code <> 200.
Proof.
  unfold CheckHealth, bind.
  destruct (doRequest c ctx http.MethodGet "/health" None s)
    as [[resp | e] s1] eqn:Ereq.
  - unfold defer, http.StatusOK.
    destruct (Z.eqb_spec (http.StatusCode resp) 200) as [Heq | Hne]; simpl;
      [discriminate|].
    intro H; injection H as <- _ <-.
    apply doRequest_Ok in Ereq as (req & Hlog & _).
    split; [|assumption]. exists req, resp. auto.
  - intro H; injection H as -> _.
    apply doRequest_Err in Ereq as (m & cause & Habs). discriminate.
Qed.

(** C2, as the code has it. An [APIError] comes only from a response the
    server returned, and carries its status: whatever operation returns
    [APIError{code, msg}], a response with status [code] came back in the
    round trip that operation made, and [code] is 400 or more, except for
    [CheckHealth] and [Ping], where it is any code other than 200; so on a
    2xx response no JSON operation returns an [APIError]. And the health
    probe does return one on every status other than 200, the other 2xx
    codes included: [APIError] with that status and the message made from
    it. *)
Theorem APIError_only_from_rejected_status :
  (forall (op : Call) (s s' : NetState) (code : Z) (msg : string),
      call_error c ctx op s = (Some (apiError code msg), s') ->
      from_response s s' code
      /\ (if is_health_call op then code <> 200 else 400 <= code)
      /\ (200 <= code <= 299 -> is_health_call op = true /\ code <> 200))
  /\ (forall (op : Call) (s : NetState) (resp : http.Response) (w : World),
         is_health_call op = true ->
         NewRequest_error ctx "GET" (baseURL c ++ "/health") = None ->
         Do (httpClient c) (bare_request c ctx "GET" "/health") (world s)
         = (Ok resp, w) ->
         http.StatusCode resp <> 200 ->
         call_error c ctx op s
         = (Some (apiError (http.StatusCode resp)
                    ("health check failed with status "
                     ++ itoa (http.StatusCode resp))),
            Close (after_round_trip s (bare_request c ctx "GET" "/health")
                     (Ok resp) w))).
Proof.
  split.
  - intros op s s' code msg H.
    assert (G : from_response s s' code
                /\ (if is_health_call op
                    then code <> 200 else 400 <= code)).
    { destruct op; simpl in H; apply error_of_Some in H; simpl.
      - destruct req as [r|]; [|discriminate].
        apply (roundTripJSON_apiError c ctx) in H. exact H.
      - destruct req as [r|]; [|discriminate].
        unfold PostBulkMessages in H.
        destruct (Z.of_nat _ =? 0)%Z; [discriminate|].
        apply (roundTripJSON_apiError c ctx) in H. exact H.
      - apply (roundTripJSON_apiError c ctx) in H. exact H.
      - apply (roundTripJSON_apiError c ctx) in H. exact H.
      - apply (roundTripJSON_apiError c ctx) in H. exact H.
      - apply (roundTripJSON_apiError c ctx) in H. exact H.
      - now apply ScaleWorkers_apiError in H.
      - unfold AddWorkers in H. destruct (count <=? 0)%Z; [discriminate|].
        now apply ScaleWorkers_apiError in H.
      - unfold RemoveWorkers in H. destruct (count <=? 0)%Z; [discriminate|].
        now apply ScaleWorkers_apiError in H.
      - apply (roundTripJSON_apiError c ctx) in H. exact H.
      - unfold GetWorkerCount in H.
        apply GetWorkerStatus_then_apiError in H; [exact H|].
        intros status s0.
        destruct (priority =? "low")%string; [discriminate|].
        destruct (priority =? "medium")%string; [discriminate|].
        destruct (priority =? "high")%string; discriminate.
      - unfold GetTotalWorkerCount in H.
        apply GetWorkerStatus_then_apiError in H; [exact H|].
        intros status s0. discriminate.
      - now apply CheckHealth_apiError in H.
      - now apply CheckHealth_apiError in H. }
    destruct G as [G1 G2]. repeat split; try assumption.
    + destruct (is_health_call op); [reflexivity|lia].
    + destruct (is_health_call op); [assumption|lia].
  - intros op s resp w Hh Hreq Hdo Hcode.
    assert (E : call_error c ctx op s = error_of (CheckHealth c ctx) s)
      by (destruct op; try discriminate Hh; reflexivity).
    rewrite E. unfold error_of, CheckHealth, bind.
    rewrite doRequest_no_body.
    change http.MethodGet with "GET". rewrite Hreq. cbv zeta. rewrite Hdo.
    unfold defer, http.StatusOK.
    destruct (Z.eqb_spec (http.StatusCode resp) 200); [contradiction|].
    reflexivity.
Qed.

End Errors.

(** ** The properties on the test double *)

(** The priority [urgent] reaches the validation of [GetWorkerCount] only
    after the status has been fetched from the server: one GET is in the
    log, and with a failing server the error is the server's, not a
    validation error. *)
Lemma GetWorkerCount_unknown_priority_hits_network :
  known_priority "urgent" = false
  /\ GetWorkerCount (RT := ok200) testClient Background "urgent" (initial ok200 0%nat)
     = (Err (errorString "invalid priority: urgent"),
        mkNetState (RT := ok200) 1%nat
          [mkExchange (RT := ok200) statusRequest
             (Ok (http.mkResponse 200 (io.mkReader "{}" None)))]
          1)
  /\ requests (RT := ok200)
       (snd (GetWorkerCount (RT := ok200) testClient Background "urgent"
               (initial ok200 0%nat)))
     <> requests (RT := ok200) (initial ok200 0%nat)
  /\ fst (GetWorkerCount (RT := down500) testClient Background "urgent"
            (initial down500 0%nat))
     = Err (apiError 500 "Service Unavailable").
Proof.
  repeat split. vm_compute. discriminate.
Qed.

Lemma GetWorkerCount_validates_after_fetch_witness :
  known_priority "urgent" = false
  /\ fst (GetWorkerCount (RT := ok200) testClient Background "urgent"
            (initial ok200 0%nat))
     = Err (errorString "invalid priority: urgent")
  /\ requests (RT := ok200)
       (snd (GetWorkerCount (RT := ok200) testClient Background "urgent"
               (initial ok200 0%nat)))
     = [statusRequest].
Proof.
  destruct (GetWorkerCount_validates_after_fetch (RT := ok200)
              testClient Background "urgent" (initial ok200 0%nat) eq_refl)
    as [E Hlog].
  split; [reflexivity|]. split.
  - rewrite E. reflexivity.
  - rewrite (Hlog eq_refl). reflexivity.
Defined.

(** A health probe answered with 201 returns an [APIError] although the
    status is in the 2xx range. *)
Lemma CheckHealth_201_is_APIError :
  (200 <=? 201)%Z && (201 <=? 299)%Z = true
  /\ CheckHealth (RT := created201) testClient Background (initial created201 0%nat)
     = (Err (apiError 201 "health check failed with status 201"),
        mkNetState (RT := created201) 1%nat
          [mkExchange (RT := created201) healthRequest
             (Ok (http.mkResponse 201 (io.mkReader "OK" None)))]
          1)
  /\ call_error (RT := created201) testClient Background CallCheckHealth
       (initial created201 0%nat)
     = (Some (apiError 201 "health check failed with status 201"),
        mkNetState (RT := created201) 1%nat
          [mkExchange (RT := created201) healthRequest
             (Ok (http.mkResponse 201 (io.mkReader "OK" None)))]
          1).
Proof. repeat split. Qed.

Lemma APIError_only_from_rejected_status_witness :
  (from_response (RT := down500) (initial down500 0%nat)
     (snd (call_error (RT := down500) testClient Background
             CallGetWorkerStatus (initial down500 0%nat)))
     500
   /\ 400 <= 500)
  /\ (from_response (RT := created201) (initial created201 0%nat)
        (snd (call_error (RT := created201) testClient Background
                CallCheckHealth (initial created201 0%nat)))
        201
      /\ is_health_call CallCheckHealth = true)
  /\ call_error (RT := created201) testClient Background CallCheckHealth
       (initial created201 0%nat)
     = (Some (apiError 201 "health check failed with status 201"),
        mkNetState (RT := created201) 1%nat
          [mkExchange (RT := created201) healthRequest
             (Ok (http.mkResponse 201 (io.mkReader "OK" None)))]
          1)
  /\ fst (call_error (RT := created201) testClient Background CallPing
            (initial created201 0%nat))
     = Some (apiError 201 "health check failed with status 201").
Proof.
  destruct (APIError_only_from_rejected_status (RT := down500)
              testClient Background)
    as [Honly500 _].
  destruct (APIError_only_from_rejected_status (RT := created201)
              testClient Background)
    as [Honly201 Hhealth].
  destruct (Honly500 CallGetWorkerStatus (initial down500 0%nat)
              _ 500 "Service Unavailable" eq_refl)
    as (Hfrom & Hcode & _).
  destruct (Honly201 CallCheckHealth (initial created201 0%nat)
              _ 201 "health check failed with status 201" eq_refl)
    as (Hfrom' & _ & H2xx).
  assert (Hne : http.StatusCode (http.mkResponse 201 (io.mkReader "OK" None))
                <> 200) by (simpl; lia).
  split; [split; [exact Hfrom | exact Hcode]|].
  split; [split; [exact Hfrom' | apply H2xx; lia]|].
  split.
  - exact (Hhealth CallCheckHealth (initial created201 0%nat)
             (http.mkResponse 201 (io.mkReader "OK" None)) 1%nat
             eq_refl eq_refl eq_refl Hne).
  - rewrite (Hhealth CallPing (initial created201 0%nat)
               (http.mkResponse 201 (io.mkReader "OK" None)) 1%nat
               eq_refl eq_refl eq_refl Hne).
    reflexivity.
Defined.

(** A response with status 500 whose body breaks off while it is read
    gives a wrapped read error, not an [APIError]. *)
Lemma parseResponse_cut_off_body_not_APIError :
  let resp :=
    http.mkResponse 500
      (io.mkReader "Service Unav" (Some (foreignError "unexpected EOF"))) in
  400 <= http.StatusCode resp
  /\ parseResponse (RT := cutOff500) (H := stubUnmarshal) testClient resp
       (Some ScaleWorkersResponse.zero) (initial cutOff500 0%nat)
     = (Err (wrapError "failed to read response body"
               (foreignError "unexpected EOF")),
        Close (RT := cutOff500) (initial cutOff500 0%nat))
  /\ fst (parseResponse (RT := cutOff500) (H := stubUnmarshal) testClient resp
            (@None ScaleWorkersResponse.t) (initial cutOff500 0%nat))
     <> Err (apiError 500 "Service Unav")
  /\ IsAPIError (wrapError "failed to read response body"
                   (foreignError "unexpected EOF")) = false.
Proof.
  cbv zeta. repeat split.
  - simpl; lia.
  - vm_compute. discriminate.
Qed.

Lemma parseResponse_classifies_by_status_witness :
  parseResponse (RT := down500) (H := stubUnmarshal) testClient
    (http.mkResponse 500 (io.mkReader "Service Unavailable" None))
    (Some MessageResponse.zero) (initial down500 0%nat)
  = (Err (apiError 500 "Service Unavailable"),
     Close (RT := down500) (initial down500 0%nat))
  /\ parseResponse (RT := created201) (H := stubUnmarshal) testClient
       (http.mkResponse 201 (io.mkReader "OK" None))
       (Some MessageResponse.zero) (initial created201 0%nat)
     = (Err (wrapError "failed to unmarshal response"
               (foreignError
                  "invalid character looking for beginning of value")),
        Close (RT := created201) (initial created201 0%nat))
  /\ parseResponse (RT := created201) (H := stubUnmarshal) testClient
       (http.mkResponse 201 (io.mkReader "OK" None))
       (@None MessageResponse.t) (initial created201 0%nat)
     = (Ok None, Close (RT := created201) (initial created201 0%nat)).
Proof.
  split; [|split].
  - apply (parseResponse_classifies_by_status (RT := down500)
             (H := stubUnmarshal) testClient
             (http.mkResponse 500 (io.mkReader "Service Unavailable" None))
             "Service Unavailable" (initial down500 0%nat) eq_refl).
    simpl; lia.
  - apply (parseResponse_classifies_by_status (RT := created201)
             (H := stubUnmarshal) testClient
             (http.mkResponse 201 (io.mkReader "OK" None))
             "OK" (initial created201 0%nat) eq_refl).
    + simpl; lia.
    + reflexivity.
  - apply (parseResponse_classifies_by_status (RT := created201)
             (H := stubUnmarshal) testClient
             (http.mkResponse 201 (io.mkReader "OK" None))
             "OK" (initial created201 0%nat) eq_refl).
    simpl; lia.
Defined.

Lemma ScaleWorkers_validates_before_sending_witness :
  (known_priority "urgent" = false \/ 1 = 0)
  /\ (known_priority "high" = false \/ 0 = 0)
  /\ (exists msg : string,
         ScaleWorkers (RT := ok200) testClient Background "urgent" 1
           (initial ok200 0%nat)
         = (Err (errorString msg), initial ok200 0%nat))
  /\ (exists msg : string,
         ScaleWorkers (RT := ok200) testClient Background "high" 0
           (initial ok200 0%nat)
         = (Err (errorString msg), initial ok200 0%nat)).
Proof.
  split; [left; reflexivity|]. split; [right; reflexivity|]. split.
  - destruct (ScaleWorkers_validates_before_sending (RT := ok200)
                testClient Background "urgent" 1 (initial ok200 0%nat)
                (or_introl eq_refl))
      as (msg & E & _).
    exists msg. exact E.
  - destruct (ScaleWorkers_validates_before_sending (RT := ok200)
                testClient Background "high" 0 (initial ok200 0%nat)
                (or_intror eq_refl))
      as (msg & E & _).
    exists msg. exact E.
Defined.

Lemma AddWorkers_RemoveWorkers_delegate_witness :
  in_int 3
  /\ in_int (-1)
  /\ RemoveWorkers (RT := ok200) testClient Background "high" 3
       (initial ok200 0%nat)
     = ScaleWorkers (RT := ok200) testClient Background "high" (-3)
         (initial ok200 0%nat)
  /\ AddWorkers (RT := ok200) testClient Background "high" 3
       (initial ok200 0%nat)
     = ScaleWorkers (RT := ok200) testClient Background "high" 3
         (initial ok200 0%nat)
  /\ AddWorkers (RT := ok200) testClient Background "high" (-1)
       (initial ok200 0%nat)
     = (Err (errorString "count must be greater than 0"),
        initial ok200 0%nat).
Proof.
  assert (H3 : in_int 3) by (unfold in_int, int_min, int_max; lia).
  assert (H1 : in_int (-1)) by (unfold in_int, int_min, int_max; lia).
  split; [exact H3|]. split; [exact H1|].
  destruct (AddWorkers_RemoveWorkers_delegate (RT := ok200)
              testClient Background "high" 3 (initial ok200 0%nat) H3)
    as [_ Hpos].
  destruct (AddWorkers_RemoveWorkers_delegate (RT := ok200)
              testClient Background "high" (-1) (initial ok200 0%nat) H1)
    as [Hneg _].
  destruct Hpos as [Hadd Hrem]; [lia|].
  destruct Hneg as [Hadd' _]; [lia|].
  repeat split; assumption.
Defined.

Lemma CheckHealth_by_status_witness :
  CheckHealth (RT := ok200) testClient Background (initial ok200 0%nat)
  = (Ok (HealthResponse.mk "OK"),
     mkNetState (RT := ok200) 1%nat
       [mkExchange (RT := ok200) healthRequest
          (Ok (http.mkResponse 200 (io.mkReader "{}" None)))]
       1)
  /\ CheckHealth (RT := down500) testClient Background (initial down500 0%nat)
     = (Err (apiError 500 "health check failed with status 500"),
        mkNetState (RT := down500) 1%nat
          [mkExchange (RT := down500) healthRequest
             (Ok (http.mkResponse 500
                    (io.mkReader "Service Unavailable" None)))]
          1).
Proof.
  split.
  - apply (CheckHealth_by_status (RT := ok200) testClient Background
             (initial ok200 0%nat)
             (http.mkResponse 200 (io.mkReader "{}" None)) 1%nat
             eq_refl eq_refl).
    reflexivity.
  - apply (CheckHealth_by_status (RT := down500) testClient Background
             (initial down500 0%nat)
             (http.mkResponse 500 (io.mkReader "Service Unavailable" None))
             1%nat eq_refl eq_refl).
    simpl; lia.
Defined.

Lemma IsHealthy_iff_CheckHealth_succeeds_witness :
  fst (IsHealthy (RT := ok200) testClient Background (initial ok200 0%nat))
  = true
  /\ err_of (fst (CheckHealth (RT := down500) testClient Background
                    (initial down500 0%nat)))
     <> None.
Proof.
  split.
  - apply (IsHealthy_iff_CheckHealth_succeeds (RT := ok200) testClient
             Background (initial ok200 0%nat)).
    reflexivity.
  - intro H.
    apply (IsHealthy_iff_CheckHealth_succeeds (RT := down500) testClient
             Background (initial down500 0%nat)) in H.
    discriminate H.
Defined.

(** ** One attempt per operation *)

Section SingleAttempt.

Context {RT : Runtime}.

Variables (c : Client) (ctx : Ctx).

Lemma doRequest_effect (method path : string) (body : option Payload)
    (s : NetState) :
  (exists msg cause,
      doRequest c ctx method path body s = (Err (wrapError msg cause), s)
      /\ (msg = "failed to marshal request body"
          \/ msg = "failed to create request"))
  \/ (exists reqBody out w,
         marshalBody body = Ok reqBody
         /\ NewRequest_error ctx method (baseURL c ++ path) = None
         /\ Do (httpClient c) (request_sent c ctx method path reqBody)
              (world s) = (out, w)
         /\ doRequest c ctx method path body s
            = (match out with
               | Ok resp => Ok resp
               | Err e => Err (wrapError "request failed" e)
               end,
               after_round_trip s (request_sent c ctx method path reqBody)
                 out w)).
Proof.
  unfold doRequest, bind, wrapping, NewRequestWithContext.
  destruct body as [b|]; simpl.
  - destruct (json_Marshal b) as [j | e]; simpl.
    2:{ left. eauto. }
    destruct (NewRequest_error ctx method (baseURL c ++ path)) as [e|]; simpl.
    { left. eauto. }
    right. unfold httpClient_Do, http.Header_Set; simpl.
    destruct (Do (httpClient c)
                (request_sent c ctx method path (Some j)) (world s))
      as [out w] eqn:Hdo.
    exists (Some j), out, w. repeat split; auto.
    unfold request_sent in Hdo. rewrite Hdo.
    destruct out; reflexivity.
  - destruct (NewRequest_error ctx method (baseURL c ++ path)) as [e|]; simpl.
    { left. eauto. }
    right. unfold httpClient_Do; simpl.
    destruct (Do (httpClient c)
                (request_sent c ctx method path None) (world s))
      as [out w] eqn:Hdo.
    exists None, out, w. repeat split; auto.
    unfold request_sent in Hdo. rewrite Hdo.
    destruct out; reflexivity.
Qed.

Lemma parseResponse_state {T} `{Unmarshaler T}
    (resp : http.Response) (target : option T) (s : NetState) :
  snd (parseResponse c resp target s) = Close s.
Proof.
  unfold parseResponse, defer.
  destruct (io.ReadAll (http.Body resp)) as [body [e|]]; [reflexivity|].
  destruct (http.StatusCode resp >=? 400)%Z; [reflexivity|].
  destruct target as [t|]; [|reflexivity].
  destruct (json_Unmarshal body t); reflexivity.
Qed.

(** Every error of [parseResponse] is a wrapped one or an [APIError]. *)
Lemma parseResponse_Err {T} `{Unmarshaler T}
    (resp : http.Response) (target : option T) (s s' : NetState)
    (e : error) :
  parseResponse c resp target s = (Err e, s') ->
  (exists cause,
      e = wrapError "failed to read response body" cause
      \/ e = wrapError "failed to unmarshal response" cause)
  \/ exists code msg, e = apiError code msg.
Proof.
  unfold parseResponse, defer.
  destruct (io.ReadAll (http.Body resp)) as [body [e0|]].
  { intro E; injection E as <- _. left; eauto. }
  destruct (http.StatusCode resp >=? 400)%Z.
  { intro E; injection E as <- _. right; eauto. }
  destruct target as [t|]; [|discriminate].
  destruct (json_Unmarshal body t) as [v | e0]; [discriminate|].
  intro E; injection E as <- _. left; eauto.
Qed.

Lemma roundTripJSON_effect {T} `{Unmarshaler T} (method path : string)
    (body : option Payload) (zero : T) (s : NetState) :
  one_exchange c ctx method path body s
    (snd (roundTripJSON c ctx method path body zero s)).
Proof.
  unfold roundTripJSON, bind at 1.
  destruct (doRequest_effect method path body s)
    as [(msg & cause & E & _) | (reqBody & out & w & Hm & _ & Hdo & E)];
    rewrite E.
  - left. reflexivity.
  - right. exists reqBody, out, w. repeat split; auto.
    destruct out as [resp | e]; [|reflexivity].
    unfold bind.
    pose proof (parseResponse_state resp (Some zero)
                  (after_round_trip s
                     (request_sent c ctx method path reqBody) (Ok resp) w))
      as Hst.
    destruct (parseResponse _ _ _ _) as [[v | e] s2]; simpl in *;
      rewrite Hst; reflexivity.
Qed.

Lemma roundTripJSON_Err {T} `{Unmarshaler T} (method path : string)
    (body : option Payload) (zero : T) (s s' : NetState) (e : error) :
  roundTripJSON c ctx method path body zero s = (Err e, s') ->
  (exists msg cause, e = wrapError msg cause /\ In msg wrap_messages)
  \/ exists code msg, e = apiError code msg.
Proof.
  unfold roundTripJSON, bind at 1.
  destruct (doRequest_effect method path body s)
    as [(msg & cause & E & Hmsg) | (reqBody & out & w & _ & _ & _ & E)];
    rewrite E.
  - intro H0; injection H0 as <- _. left. exists msg, cause.
    split; [reflexivity|]. unfold wrap_messages.
    destruct Hmsg as [-> | ->]; simpl; auto.
  - destruct out as [resp | e0].
    + unfold bind.
      destruct (parseResponse _ _ _ _) as [[v | e1] s2] eqn:Ep;
        [discriminate|].
      intro H0; injection H0 as <- _.
      apply parseResponse_Err in Ep
        as [(cause & [-> | ->]) | (code & m & ->)].
      * left. do 2 eexists. split; [reflexivity|]. simpl; auto.
      * left. do 2 eexists. split; [reflexivity|]. simpl; auto 6.
      * right. eauto.
    + intro H0; injection H0 as <- _. left. do 2 eexists.
      split; [reflexivity|]. simpl; auto.
Qed.

Lemma app_one_neq {A} (l : list A) (x : A) : l <> (l ++ [x])%list.
Proof.
  intro E. apply (f_equal (@length A)) in E.
  rewrite length_app in E. simpl in E. lia.
Qed.

(** A response with a status of 400 or more and a readable body, once it
    is in the log, decides the result of the round trip. *)
Lemma roundTripJSON_rejected {T} `{Unmarshaler T} (method path : string)
    (body : option Payload) (zero : T) (s : NetState)
    (req : http.Request Ctx) (resp : http.Response) :
  log (snd (roundTripJSON c ctx method path body zero s))
  = (log s ++ [mkExchange req (Ok resp)])%list ->
  io.failure (http.Body resp) = None ->
  400 <= http.StatusCode resp ->
  fst (roundTripJSON c ctx method path body zero s)
  = Err (apiError (http.StatusCode resp) (io.data (http.Body resp))).
Proof.
  intros Hlog Hread Hcode. unfold roundTripJSON, bind in *.
  destruct (doRequest_effect method path body s)
    as [(msg & cause & E & _) | (reqBody & out & w & _ & _ & _ & E)];
    rewrite E in *.
  - simpl in Hlog. now apply app_one_neq in Hlog.
  - destruct out as [resp0 | e0].
    + pose proof (parseResponse_log c resp0 (Some zero)
                    (after_round_trip s
                       (request_sent c ctx method path reqBody)
                       (Ok resp0) w)) as Hl.
      destruct (parseResponse _ _ _ _) as [[v | e1] s2] eqn:Ep;
        simpl in Hlog, Hl; rewrite Hl in Hlog;
        apply app_inj_tail in Hlog as [_ Hex];
        injection Hex as _ ->;
        unfold parseResponse, defer, io.ReadAll in Ep;
        rewrite Hread in Ep;
        destruct (Z.geb_spec (http.StatusCode resp) 400); try lia;
        try discriminate Ep.
      injection Ep as <- _. reflexivity.
    + simpl in Hlog. apply app_inj_tail in Hlog as [_ Hex].
      discriminate.
Qed.

End SingleAttempt.

(** ** The operations, one by one *)

Section Calls.

Context {RT : Runtime}.

Variables (c : Client) (ctx : Ctx).

Lemma error_of_run {T} (m : IO T) (s : NetState) :
  error_of m s
  = (match fst (m s) with
     | Ok _ => None
     | Err e => Some e
     end,
     snd (m s)).
Proof. unfold error_of. destruct (m s) as [[v | e] s']; reflexivity. Qed.

(** Every operation other than the health probe either rejects its
    arguments on the spot, or makes the JSON round trip of its endpoint and
    then, at most, selects from the decoded value. *)
Lemma call_error_cases (op : Call) (s : NetState) :
  is_health_call op = false ->
  (exists msg, call_error c ctx op s = (Some (errorString msg), s))
  \/ (exists (T : Type) (H : Unmarshaler T) (zero : T)
             (k : T -> option error),
         (validates_first op = true -> forall v, k v = None)
         /\ (forall v e, k v = Some e -> exists msg, e = errorString msg)
         /\ call_error c ctx op s
            = (match fst (roundTripJSON c ctx (fst (endpoint op))
                            (snd (endpoint op)) (payload op) zero s) with
               | Ok v => k v
               | Err e => Some e
               end,
               snd (roundTripJSON c ctx (fst (endpoint op))
                      (snd (endpoint op)) (payload op) zero s))).
Proof.
  intro Hh.
  assert (plain : forall (T : Type) (H : Unmarshaler T) (zero : T),
             call_error c ctx op s
             = error_of (roundTripJSON c ctx (fst (endpoint op))
                           (snd (endpoint op)) (payload op) zero) s ->
             exists (T : Type) (H : Unmarshaler T) (zero : T)
                    (k : T -> option error),
               (validates_first op = true -> forall v, k v = None)
               /\ (forall v e, k v = Some e -> exists msg, e = errorString msg)
               /\ call_error c ctx op s
                  = (match fst (roundTripJSON c ctx (fst (endpoint op))
                                  (snd (endpoint op)) (payload op) zero s) with
                     | Ok v => k v
                     | Err e => Some e
                     end,
                     snd (roundTripJSON c ctx (fst (endpoint op))
                            (snd (endpoint op)) (payload op) zero s))).
  { intros T H zero E. exists T, H, zero, (fun _ => None).
    split; [reflexivity|]. split; [discriminate|].
    rewrite E. apply error_of_run. }
  assert (guards : forall p n,
             (exists msg, ScaleWorkers c ctx p n s
                          = (Err (errorString msg), s))
             \/ ScaleWorkers c ctx p n
                = roundTripJSON c ctx "POST" (scalePath p n) None
                    ScaleWorkersResponse.zero).
  { intros p n. unfold ScaleWorkers.
    destruct (p =? "")%string; [left; eexists; reflexivity|].
    destruct (negb (p =? "low")%string && negb (p =? "medium")%string
              && negb (p =? "high")%string);
      [left; eexists; reflexivity|].
    destruct (n =? 0)%Z; [left; eexists; reflexivity|].
    right. reflexivity. }
  destruct op; try discriminate Hh.
  - destruct req as [r|].
    + right. apply (plain _ _ MessageResponse.zero). reflexivity.
    + left. eexists. reflexivity.
  - destruct req as [r|].
    + destruct (Z.of_nat (length (BulkMessageRequest.Messages r)) =? 0)%Z
        eqn:Hlen.
      * left. eexists. simpl. unfold PostBulkMessages. rewrite Hlen.
        reflexivity.
      * right. apply (plain _ _ BulkMessageResponse.zero).
        simpl. unfold PostBulkMessages. rewrite Hlen. reflexivity.
    + left. eexists. reflexivity.
  - right. apply (plain _ _ MessageResponse.zero). reflexivity.
  - right. apply (plain _ _ MessageResponse.zero). reflexivity.
  - right. apply (plain _ _ MessageResponse.zero). reflexivity.
  - right. apply (plain _ _ WorkerStatusResponse.zero). reflexivity.
  - destruct (guards priority count) as [(msg & E) | E].
    + left. exists msg. simpl. unfold error_of. rewrite E. reflexivity.
    + right. apply (plain _ _ ScaleWorkersResponse.zero).
      simpl. rewrite E. reflexivity.
  - destruct (count <=? 0)%Z eqn:H0.
    + left. eexists. simpl. unfold AddWorkers. rewrite H0. reflexivity.
    + destruct (guards priority count) as [(msg & E) | E].
      * left. exists msg. simpl. unfold error_of, AddWorkers.
        rewrite H0, E. reflexivity.
      * right. apply (plain _ _ ScaleWorkersResponse.zero).
        simpl. unfold AddWorkers. rewrite H0, E. reflexivity.
  - destruct (count <=? 0)%Z eqn:H0.
    + left. eexists. simpl. unfold RemoveWorkers. rewrite H0. reflexivity.
    + destruct (guards priority (int_neg count)) as [(msg & E) | E].
      * left. exists msg. simpl. unfold error_of, RemoveWorkers.
        rewrite H0, E. reflexivity.
      * right. apply (plain _ _ ScaleWorkersResponse.zero).
        simpl. unfold RemoveWorkers. rewrite H0, E. reflexivity.
  - right. apply (plain _ _ RemoveAllWorkersResponse.zero). reflexivity.
  - right.
    exists WorkerStatusResponse.t, um_WorkerStatusResponse,
      WorkerStatusResponse.zero,
      (fun _ =>
         if (priority =? "low")%string then None
         else if (priority =? "medium")%string then None
         else if (priority =? "high")%string then None
         else Some (errorString ("invalid priority: " ++ priority))).
    split; [discriminate|]. split.
    + intros v e.
      destruct (priority =? "low")%string; [discriminate|].
      destruct (priority =? "medium")%string; [discriminate|].
      destruct (priority =? "high")%string; [discriminate|].
      intro E; injection E as <-. eauto.
    + simpl call_error. unfold error_of, GetWorkerCount, bind.
      change (GetWorkerStatus c ctx s)
        with (roundTripJSON c ctx "GET" "/api/v1/workers/status" None
                WorkerStatusResponse.zero s).
      simpl endpoint. simpl payload. cbv [fst snd].
      destruct (roundTripJSON c ctx "GET" "/api/v1/workers/status" None
                  WorkerStatusResponse.zero s) as [[v | e] s1];
        [|reflexivity].
      destruct (priority =? "low")%string; [reflexivity|].
      destruct (priority =? "medium")%string; [reflexivity|].
      destruct (priority =? "high")%string; reflexivity.
  - right. apply (plain _ _ WorkerStatusResponse.zero).
    simpl call_error. unfold error_of, GetTotalWorkerCount, bind.
    change (GetWorkerStatus c ctx s)
      with (roundTripJSON c ctx "GET" "/api/v1/workers/status" None
              WorkerStatusResponse.zero s).
    simpl endpoint. simpl payload. cbv [fst snd].
    destruct (roundTripJSON c ctx "GET" "/api/v1/workers/status" None
                WorkerStatusResponse.zero s) as [[v | e] s1]; reflexivity.
Qed.

End Calls.

Section Guarantees.

Context {RT : Runtime}.

Variables (c : Client) (ctx : Ctx).

(** X1. [doRequest] makes one attempt and no more: either it fails before
    anything is sent, leaving the state as it was, or it hands exactly one
    request to the transport and returns the response, or the transport's
    error wrapped. It never closes a body, and every error it returns is a
    wrapped one. *)
Theorem doRequest_single_attempt (method path : string)
    (body : option Payload) (s : NetState) :
  let r := fst (doRequest c ctx method path body s) in
  let s' := snd (doRequest c ctx method path body s) in
  closed s' = closed s
  /\ (forall e, r = Err e -> exists msg cause, e = wrapError msg cause)
  /\ ((s' = s /\ is_ok r = false)
      \/ exists reqBody out,
           marshalBody body = Ok reqBody
           /\ log s'
              = (log s
                 ++ [mkExchange (request_sent c ctx method path reqBody)
                       out])%list
           /\ r = match out with
                  | Ok resp => Ok resp
                  | Err e => Err (wrapError "request failed" e)
                  end).
Proof.
  cbv zeta.
  destruct (doRequest_effect c ctx method path body s)
    as [(msg & cause & E & _) | (reqBody & out & w & Hm & _ & _ & E)];
    rewrite E; simpl.
  - split; [reflexivity|]. split.
    + intros e He; injection He as <-. eauto.
    + left. split; reflexivity.
  - split; [reflexivity|]. split.
    + intros e He. destruct out as [resp | e0]; [discriminate|].
      injection He as <-. eauto.
    + right. exists reqBody, out. repeat split; assumption.
Qed.

Lemma CheckHealth_run (s : NetState) :
  (exists msg cause,
      CheckHealth c ctx s = (Err (wrapError msg cause), s)
      /\ In msg wrap_messages)
  \/ (exists out w,
         NewRequest_error ctx "GET" (baseURL c ++ "/health") = None
         /\ Do (httpClient c) (request_sent c ctx "GET" "/health" None)
              (world s) = (out, w)
         /\ CheckHealth c ctx s
            = (match out with
               | Ok resp =>
                   if (http.StatusCode resp =? 200)%Z
                   then Ok (HealthResponse.mk "OK")
                   else Err (apiError (http.StatusCode resp)
                               (healthMessage (http.StatusCode resp)))
               | Err e => Err (wrapError "request failed" e)
               end,
               settled s (request_sent c ctx "GET" "/health" None) out w)).
Proof.
  unfold CheckHealth, bind.
  destruct (doRequest_effect c ctx http.MethodGet "/health" None s)
    as [(msg & cause & E & Hmsg) | (reqBody & out & w & Hm & Hreq & Hdo & E)];
    rewrite E.
  - left. exists msg, cause. split; [reflexivity|].
    destruct Hmsg as [-> | ->]; simpl; auto.
  - right. injection Hm as <-. exists out, w.
    split; [exact Hreq|]. split; [exact Hdo|].
    destruct out as [resp | e]; [|reflexivity].
    unfold defer, http.StatusOK; simpl.
    destruct (http.StatusCode resp =? 200)%Z; reflexivity.
Qed.

Lemma call_effect (op : Call) (s : NetState) :
  one_exchange c ctx (fst (endpoint op)) (snd (endpoint op)) (payload op) s
    (snd (call_error c ctx op s)).
Proof.
  destruct (is_health_call op) eqn:Hh.
  - assert (E : call_error c ctx op s = error_of (CheckHealth c ctx) s
                /\ endpoint op = ("GET", "/health") /\ payload op = None)
      by (destruct op; try discriminate Hh; repeat split).
    destruct E as (-> & -> & ->). rewrite error_of_run. simpl.
    destruct (CheckHealth_run s)
      as [(msg & cause & E & _) | (out & w & _ & Hdo & E)]; rewrite E.
    + left. reflexivity.
    + right. exists None, out, w. repeat split; assumption.
  - destruct (call_error_cases c ctx op s Hh)
      as [(msg & E) | (T & H & zero & k & _ & _ & E)]; rewrite E.
    + left. reflexivity.
    + apply roundTripJSON_effect.
Qed.

(** X2. Each operation issues at most one request, and when it does, it
    is the request of its endpoint: the method and path of the table, the
    context handed in, the JSON encoding of its payload as body, and the
    JSON content type exactly when there is a body. *)
Theorem every_call_one_request_at_its_endpoint (op : Call) (s : NetState) :
  let s' := snd (call_error c ctx op s) in
  requests s' = requests s
  \/ exists reqBody,
       marshalBody (payload op) = Ok reqBody
       /\ requests s'
          = (requests s
             ++ [request_sent c ctx (fst (endpoint op)) (snd (endpoint op))
                   reqBody])%list.
Proof.
  cbv zeta.
  destruct (call_effect op s) as [-> | (reqBody & out & w & Hm & _ & ->)].
  - left. reflexivity.
  - right. exists reqBody. split; [exact Hm|].
    unfold requests. destruct out; simpl; rewrite map_app; reflexivity.
Qed.

(** X3. No operation leaks a response body: every response that came back
    is closed exactly once before the operation returns, on the success
    path and on every error path, and nothing is closed when no response
    came back. *)
Theorem every_response_body_closed (op : Call) (s : NetState) :
  let s' := snd (call_error c ctx op s) in
  exists new,
    log s' = (log s ++ new)%list
    /\ closed s'
       = (closed s
          + length (filter (fun ex => is_ok (outcome ex)) new))%nat.
Proof.
  cbv zeta.
  destruct (call_effect op s) as [-> | (reqBody & out & w & _ & _ & ->)].
  - exists []. rewrite app_nil_r. simpl. split; [reflexivity|].
    now rewrite Nat.add_0_r.
  - eexists [_]. destruct out; simpl; split; try reflexivity.
    + now rewrite Nat.add_1_r.
    + now rewrite Nat.add_0_r.
Qed.

Lemma CheckHealth_Err (s s' : NetState) (e : error) :
  CheckHealth c ctx s = (Err e, s') ->
  (exists msg cause, e = wrapError msg cause /\ In msg wrap_messages)
  \/ exists code msg, e = apiError code msg.
Proof.
  destruct (CheckHealth_run s)
    as [(msg & cause & E & Hin) | (out & w & _ & _ & E)]; rewrite E.
  - intro H; injection H as <- _. left; eauto.
  - destruct out as [resp | e0].
    + destruct (http.StatusCode resp =? 200)%Z; [discriminate|].
      intro H; injection H as <- _. right; eauto.
    + intro H; injection H as <- _. left. do 2 eexists.
      split; [reflexivity|]. simpl; auto.
Qed.

(** What an error returned by an operation can be, and where a validation
    error leaves the state. *)
Lemma call_error_Some (op : Call) (s s' : NetState) (e : error) :
  call_error c ctx op s = (Some e, s') ->
  (exists msg, e = errorString msg
               /\ (validates_first op = true -> s' = s))
  \/ (exists msg cause, e = wrapError msg cause /\ In msg wrap_messages)
  \/ exists code msg, e = apiError code msg.
Proof.
  destruct (is_health_call op) eqn:Hh.
  - assert (E : call_error c ctx op s = error_of (CheckHealth c ctx) s)
      by (destruct op; try discriminate Hh; reflexivity).
    rewrite E. intro H. apply error_of_Some in H.
    right. now apply CheckHealth_Err in H.
  - destruct (call_error_cases c ctx op s Hh)
      as [(msg & E) | (T & H & zero & k & Hk1 & Hk2 & E)]; rewrite E.
    + intro H0; injection H0 as <- <-. left. eauto.
    + destruct (roundTripJSON c ctx _ _ _ zero s) as [[v | e0] s1] eqn:Ert;
        simpl; intro H0; injection H0 as H0 <-.
      * destruct (Hk2 v e H0) as (msg & ->). left. exists msg.
        split; [reflexivity|]. intro Hv. rewrite (Hk1 Hv v) in H0.
        discriminate.
      * subst e0. right. now apply roundTripJSON_Err in Ert.
Qed.

(** X4. For every operation whose checks come first (all but
    [GetWorkerCount]), a validation error means that nothing happened: the
    state of the network is the one before the call. *)
Theorem validation_error_means_nothing_sent
    (op : Call) (s s' : NetState) (msg : string) :
  validates_first op = true ->
  call_error c ctx op s = (Some (errorString msg), s') ->
  s' = s.
Proof.
  intros Hv H.
  apply call_error_Some in H
    as [(m & _ & Hs) | [(m & cause & Habs & _) | (code & m & Habs)]];
    try discriminate.
  now apply Hs.
Qed.

(** X5. The errors of the library are of three kinds and no other: a
    validation error, an error of the standard library wrapped under one
    of five fixed prefixes, or an [APIError]. An error of the standard
    library is never returned bare. *)
Theorem every_error_is_classified
    (op : Call) (s s' : NetState) (e : error) :
  call_error c ctx op s = (Some e, s') ->
  classified e = true.
Proof.
  intro H.
  apply call_error_Some in H
    as [(m & -> & _) | [(m & cause & -> & Hin) | (code & m & ->)]];
    try reflexivity.
  unfold classified. apply existsb_exists. exists m. split; [exact Hin|].
  apply String.eqb_refl.
Qed.

(** X6. Every JSON operation reports a refusal of the server in the same
    way: when the response that came back has a status of 400 or more and
    a readable body, the operation returns [APIError] with that status and
    the raw body as message. *)
Theorem any_JSON_call_reports_status_and_raw_body
    (op : Call) (s : NetState) (req : http.Request Ctx)
    (resp : http.Response) :
  is_health_call op = false ->
  log (snd (call_error c ctx op s))
  = (log s ++ [mkExchange req (Ok resp)])%list ->
  io.failure (http.Body resp) = None ->
  400 <= http.StatusCode resp ->
  fst (call_error c ctx op s)
  = Some (apiError (http.StatusCode resp) (io.data (http.Body resp))).
Proof.
  intros Hh Hlog Hread Hcode.
  destruct (call_error_cases c ctx op s Hh)
    as [(msg & E) | (T & H & zero & k & _ & _ & E)]; rewrite E in *.
  - simpl in Hlog. now apply app_one_neq in Hlog.
  - simpl in Hlog |- *.
    now rewrite (roundTripJSON_rejected c ctx _ _ _ zero s req resp
                   Hlog Hread Hcode).
Qed.

End Guarantees.

Section EndToEnd.

Context {RT : Runtime}.

Variables (c : Client) (ctx : Ctx).

Lemma roundTripJSON_transport_failure {T} `{Unmarshaler T}
    (method path : string) (body : option Payload) (zero : T)
    (s : NetState) (req : http.Request Ctx) (e : error) :
  log (snd (roundTripJSON c ctx method path body zero s))
  = (log s ++ [mkExchange req (Err e)])%list ->
  roundTripJSON c ctx method path body zero s
  = (Err (wrapError "request failed" e),
     mkNetState (world (snd (roundTripJSON c ctx method path body zero s)))
       (log s ++ [mkExchange req (Err e)]) (closed s)).
Proof.
  intro Hlog. unfold roundTripJSON, bind in *.
  destruct (doRequest_effect c ctx method path body s)
    as [(msg & cause & E & _) | (reqBody & out & w & _ & _ & _ & E)];
    rewrite E in *.
  - simpl in Hlog. now apply app_one_neq in Hlog.
  - destruct out as [resp0 | e0].
    + pose proof (parseResponse_log c resp0 (Some zero)
                    (after_round_trip s
                       (request_sent c ctx method path reqBody)
                       (Ok resp0) w)) as Hl.
      destruct (parseResponse _ _ _ _) as [[v | e1] s2];
        simpl in Hlog, Hl; rewrite Hl in Hlog;
        apply app_inj_tail in Hlog as [_ Hex]; discriminate.
    + simpl in Hlog |- *. apply app_inj_tail in Hlog as [_ Hex].
      injection Hex as -> ->. reflexivity.
Qed.

(** X7. When the transport itself fails (timeout, cancelled context,
    refused connection), every operation returns the transport's error
    wrapped under [request failed], and closes nothing. *)
Theorem any_call_wraps_transport_failure
    (op : Call) (s : NetState) (req : http.Request Ctx) (e : error) :
  log (snd (call_error c ctx op s))
  = (log s ++ [mkExchange req (Err e)])%list ->
  fst (call_error c ctx op s) = Some (wrapError "request failed" e)
  /\ closed (snd (call_error c ctx op s)) = closed s.
Proof.
  intro Hlog.
  destruct (is_health_call op) eqn:Hh.
  - assert (E : call_error c ctx op s = error_of (CheckHealth c ctx) s)
      by (destruct op; try discriminate Hh; reflexivity).
    rewrite E in *. rewrite error_of_run in *. simpl in Hlog |- *.
    destruct (CheckHealth_run c ctx s)
      as [(msg & cause & E' & _) | (out & w & _ & _ & E')];
      rewrite E' in *; simpl in Hlog.
    + now apply app_one_neq in Hlog.
    + destruct out as [resp | e0]; simpl in Hlog;
        apply app_inj_tail in Hlog as [_ Hex]; [discriminate|].
      injection Hex as _ ->. split; reflexivity.
  - destruct (call_error_cases c ctx op s Hh)
      as [(msg & E) | (T & H & zero & k & _ & _ & E)]; rewrite E in *.
    + simpl in Hlog. now apply app_one_neq in Hlog.
    + simpl in Hlog |- *.
      rewrite (roundTripJSON_transport_failure _ _ _ zero s req e Hlog).
      split; reflexivity.
Qed.

(** X8. [PostMessage], end to end. Once the request is encoded, built and
    answered with a readable body and a status below 400 (201 and the 3xx
    codes included), the result is what the JSON decoder makes of the body,
    started from the zero value: the decoded response, or the decoder's
    error wrapped. The body is closed in both cases. *)
Theorem PostMessage_decodes_below_400
    (r : MessageRequest.t) (j : string) (resp : http.Response) (w : World)
    (s : NetState) :
  json_Marshal (MessageBody r) = Ok j ->
  NewRequest_error ctx "POST" (baseURL c ++ "/api/v1/messages") = None ->
  Do (httpClient c) (request_sent c ctx "POST" "/api/v1/messages" (Some j))
    (world s) = (Ok resp, w) ->
  io.failure (http.Body resp) = None ->
  http.StatusCode resp < 400 ->
  PostMessage c ctx (Some r) s
  = (match json_Unmarshal (io.data (http.Body resp)) MessageResponse.zero with
     | Ok v => Ok v
     | Err e => Err (wrapError "failed to unmarshal response" e)
     end,
     Close (after_round_trip s
              (request_sent c ctx "POST" "/api/v1/messages" (Some j))
              (Ok resp) w)).
Proof.
  intros Hm Hreq Hdo Hread Hcode.
  unfold PostMessage, bind at 1.
  destruct (doRequest_effect c ctx http.MethodPost "/api/v1/messages"
              (Some (MessageBody r)) s)
    as [(msg & cause & E & [-> | ->])
       | (reqBody & out & w' & Hm' & _ & Hdo' & E)].
  - exfalso. revert E. unfold doRequest, bind, wrapping; simpl.
    rewrite Hm; simpl. unfold NewRequestWithContext.
    change http.MethodPost with "POST". rewrite Hreq; simpl.
    unfold httpClient_Do. destruct (Do _ _ _) as [[r0 | e0] w0]; discriminate.
  - exfalso. revert E. unfold doRequest, bind, wrapping; simpl.
    rewrite Hm; simpl. unfold NewRequestWithContext.
    change http.MethodPost with "POST". rewrite Hreq; simpl.
    unfold httpClient_Do. destruct (Do _ _ _) as [[r0 | e0] w0]; discriminate.
  - simpl in Hm'. rewrite Hm in Hm'. injection Hm' as <-.
    change http.MethodPost with "POST" in *.
    rewrite Hdo in Hdo'. injection Hdo' as <- <-.
    rewrite E. unfold bind, parseResponse, defer, io.ReadAll.
    rewrite Hread.
    destruct (Z.geb_spec (http.StatusCode resp) 400); [lia|].
    destruct (json_Unmarshal (io.data (http.Body resp)) MessageResponse.zero);
      reflexivity.
Qed.

(** X9. A payload that cannot be encoded stops [PostMessage] and
    [PostBulkMessages] before anything is sent: the encoder's error comes
    back wrapped and the state of the network is untouched. *)
Theorem unencodable_payload_is_not_sent
    (r : MessageRequest.t) (b : BulkMessageRequest.t) (e : error)
    (s : NetState) :
  (json_Marshal (MessageBody r) = Err e ->
   PostMessage c ctx (Some r) s
   = (Err (wrapError "failed to marshal request body" e), s))
  /\ (json_Marshal (BulkBody b) = Err e ->
      BulkMessageRequest.Messages b <> [] ->
      PostBulkMessages c ctx (Some b) s
      = (Err (wrapError "failed to marshal request body" e), s)).
Proof.
  split.
  - intro Hm. unfold PostMessage, bind, doRequest, bind, wrapping; simpl.
    rewrite Hm. reflexivity.
  - intros Hm Hne. unfold PostBulkMessages.
    destruct (Z.eqb_spec
                (Z.of_nat (length (BulkMessageRequest.Messages b))) 0)
      as [Hz | Hnz].
    { destruct (BulkMessageRequest.Messages b); [contradiction|].
      simpl in Hz. lia. }
    unfold bind, doRequest, bind, wrapping; simpl.
    rewrite Hm. reflexivity.
Qed.

(** X10. For the three known priorities [GetWorkerCount] is
    [GetWorkerStatus] followed by the selection of a bucket: it fails
    exactly when the fetch fails, with the same error, and otherwise
    returns the [Count] of the bucket named by the priority, leaving the
    state the fetch left. *)
Theorem GetWorkerCount_known_priority (p : string) (s : NetState) :
  known_priority p = true ->
  GetWorkerCount c ctx p s
  = match GetWorkerStatus c ctx s with
    | (Ok status, s') => (Ok (PriorityWorkerInfo.Count (bucket p status)), s')
    | (Err e, s') => (Err e, s')
    end.
Proof.
  intro Hp. unfold GetWorkerCount, bind, bucket.
  destruct (GetWorkerStatus c ctx s) as [[status | e] s']; [|reflexivity].
  unfold known_priority, priorities in Hp; simpl in Hp.
  destruct (p =? "low")%string; [reflexivity|].
  destruct (p =? "medium")%string; [reflexivity|].
  destruct (p =? "high")%string; [reflexivity|discriminate].
Qed.

(** X11. [IsHealthy] is true exactly when the probe could be built, the
    transport returned a response, and its status is 200: a transport
    failure, a request that cannot be built and any other status all give
    false, and the body plays no part. *)
Theorem IsHealthy_true_iff_status_200 (s : NetState) :
  fst (IsHealthy c ctx s) = true
  <-> (NewRequest_error ctx "GET" (baseURL c ++ "/health") = None
       /\ exists resp w,
            Do (httpClient c) (request_sent c ctx "GET" "/health" None)
              (world s) = (Ok resp, w)
            /\ http.StatusCode resp = 200).
Proof.
  unfold IsHealthy.
  destruct (CheckHealth_run c ctx s)
    as [(msg & cause & E & _) | (out & w & Hreq & Hdo & E)]; rewrite E; simpl.
  - split; [discriminate|].
    intros (Hreq & resp & w & Hdo & Hcode). exfalso. revert E.
    unfold CheckHealth, bind. rewrite doRequest_no_body.
    change http.MethodGet with "GET". rewrite Hreq. cbv zeta.
    change (bare_request c ctx "GET" "/health")
      with (request_sent c ctx "GET" "/health" None).
    rewrite Hdo. unfold defer. destruct (negb _); discriminate.
  - destruct out as [resp | e]; simpl.
    + destruct (Z.eqb_spec (http.StatusCode resp) 200) as [Heq | Hne]; simpl.
      * split; [|reflexivity]. intros _. split; [exact Hreq|].
        exists resp, w. split; assumption.
      * split; [discriminate|].
        intros (_ & resp' & w' & Hdo' & Hcode).
        rewrite Hdo in Hdo'. injection Hdo' as -> _. contradiction.
    + split; [discriminate|].
      intros (_ & resp' & w' & Hdo' & _). rewrite Hdo in Hdo'. discriminate.
Qed.

End EndToEnd.

(** X12. A client never has a zero timeout, and the timeout it records is
    the one its [http.Client] enforces, whatever config it was built from,
    nil included. *)
Theorem NewClient_timeout_invariant (config : option Config) :
  timeout (NewClient config) <> 0
  /\ http.Timeout (httpClient (NewClient config)) = timeout (NewClient config).
Proof.
  unfold NewClient, NewClient'.
  destruct config as [cfg|]; simpl.
  - destruct (Z.eqb_spec (Timeout cfg) 0); simpl; split;
      auto; unfold time.Second; lia.
  - split; [unfold time.Second; lia | reflexivity].
Qed.

(** X13. [NewClient] is stable under its own write-back: the config it
    leaves behind builds the same client again and is not changed a second
    time; and [NewClientWithDefaults] is [NewClient] on the nil config. *)
Theorem NewClient_write_back_is_stable (config : option Config) :
  NewClient' (Some (snd (NewClient' config))) = NewClient' config
  /\ NewClientWithDefaults = NewClient None.
Proof.
  split; [|reflexivity].
  unfold NewClient'. destruct config as [cfg|]; simpl.
  - destruct (Z.eqb_spec (Timeout cfg) 0) as [Hz | Hnz]; simpl.
    + reflexivity.
    + destruct (Z.eqb_spec (Timeout cfg) 0); [contradiction|]. reflexivity.
  - reflexivity.
Qed.

Lemma itoa_opp (n : Z) : 0 < n -> itoa (- n) = "-" ++ itoa n.
Proof. destruct n; try lia. intros _. reflexivity. Qed.

Section Scaling.

Context {RT : Runtime}.

Variables (c : Client) (ctx : Ctx).

Lemma ScaleWorkers_accepted (p : string) (n : Z) :
  known_priority p = true ->
  n <> 0 ->
  ScaleWorkers c ctx p n
  = roundTripJSON c ctx "POST" (scalePath p n) None ScaleWorkersResponse.zero.
Proof.
  intros Hp Hn. unfold ScaleWorkers.
  unfold known_priority, priorities in Hp; simpl in Hp.
  destruct (Z.eqb_spec n 0); [contradiction|].
  destruct (p =? "")%string eqn:He.
  { apply String.eqb_eq in He. subst p. discriminate Hp. }
  destruct (p =? "low")%string, (p =? "medium")%string,
    (p =? "high")%string; simpl in *; try discriminate; reflexivity.
Qed.

(** A round trip without body, once the request has been built: the
    transport is called once on that request, the state is the settled
    state of that round trip, and the result is read off its outcome. *)
Lemma roundTripJSON_no_body_run {T} `{Unmarshaler T}
    (method path : string) (zero : T) (s : NetState) :
  NewRequest_error ctx method (baseURL c ++ path) = None ->
  let req := bare_request c ctx method path in
  let out := fst (Do (httpClient c) req (world s)) in
  let w := snd (Do (httpClient c) req (world s)) in
  snd (roundTripJSON c ctx method path None zero s) = settled s req out w
  /\ fst (roundTripJSON c ctx method path None zero s)
     = match out with
       | Ok resp =>
           match fst (parseResponse c resp (Some zero)
                        (after_round_trip s req out w)) with
           | Ok v => Ok (pointee zero v)
           | Err e => Err e
           end
       | Err e => Err (wrapError "request failed" e)
       end.
Proof.
  intro Hreq. cbv zeta. unfold roundTripJSON, bind.
  rewrite doRequest_no_body, Hreq. cbv zeta.
  destruct (Do (httpClient c) (bare_request c ctx method path) (world s))
    as [[resp | e] w]; simpl; [|split; reflexivity].
  pose proof (parseResponse_state c resp (Some zero)
                (after_round_trip s (bare_request c ctx method path)
                   (Ok resp) w)) as Hst.
  destruct (parseResponse _ _ _ _) as [[v | e] s2]; simpl in *;
    rewrite Hst; split; reflexivity.
Qed.

Lemma settled_requests (s : NetState) (req : http.Request Ctx)
    (out : result http.Response) (w : World) :
  requests (settled s req out w) = (requests s ++ [req])%list
  /\ world (settled s req out w) = w.
Proof.
  unfold requests, settled.
  destruct out; simpl; rewrite map_app; split; reflexivity.
Qed.

(** C9, as the code has it. [ScaleWorkers c ctx "high" 2] passes its
    checks and goes to the network. When the request cannot be built (nil
    context, malformed base URL) nothing is sent and the constructor's
    error comes back wrapped. When it can, the transport is called exactly
    once, on a POST without body and without headers to the base URL
    followed by [/api/v1/workers/scale/high?count=2]: the world is the one
    that call leaves, that one request is added to those issued, the body
    of the response is closed, and the result is read off the outcome. *)
Theorem ScaleWorkers_high_2_one_round_trip (s : NetState) :
  let req :=
    http.mkRequest ctx "POST"
      (baseURL c ++ "/api/v1/workers/scale/high?count=2") None [] in
  let out := fst (Do (httpClient c) req (world s)) in
  let w := snd (Do (httpClient c) req (world s)) in
  (forall e : error,
      NewRequest_error ctx "POST"
        (baseURL c ++ "/api/v1/workers/scale/high?count=2") = Some e ->
      ScaleWorkers c ctx "high" 2 s
      = (Err (wrapError "failed to create request" e), s))
  /\ (NewRequest_error ctx "POST"
        (baseURL c ++ "/api/v1/workers/scale/high?count=2") = None ->
      snd (ScaleWorkers c ctx "high" 2 s) = settled s req out w
      /\ requests (snd (ScaleWorkers c ctx "high" 2 s))
         = (requests s ++ [req])%list
      /\ world (snd (ScaleWorkers c ctx "high" 2 s)) = w
      /\ fst (ScaleWorkers c ctx "high" 2 s)
         = match out with
           | Ok resp =>
               match fst (parseResponse c resp
                            (Some ScaleWorkersResponse.zero)
                            (after_round_trip s req out w)) with
               | Ok v => Ok (pointee ScaleWorkersResponse.zero v)
               | Err e => Err e
               end
           | Err e => Err (wrapError "request failed" e)
           end).
Proof.
  cbv zeta.
  change (ScaleWorkers c ctx "high" 2)
    with (roundTripJSON c ctx "POST" "/api/v1/workers/scale/high?count=2"
            None ScaleWorkersResponse.zero).
  split.
  - intros e Hreq. unfold roundTripJSON, bind.
    rewrite doRequest_no_body, Hreq. reflexivity.
  - intro Hreq.
    destruct (roundTripJSON_no_body_run "POST"
                "/api/v1/workers/scale/high?count=2"
                ScaleWorkersResponse.zero s Hreq) as [Hst Hres].
    split; [exact Hst|]. rewrite Hst.
    split; [apply settled_requests|].
    split; [apply settled_requests|]. exact Hres.
Qed.

(** X14. For a known priority and any count other than zero, positive or
    negative, once the request can be built [ScaleWorkers] calls the
    transport exactly once, on a POST without body whose path carries the
    priority and whose query carries the count in decimal: the state is
    the settled state of that round trip (the world the call leaves, that
    one request added, the body of a response closed) and the result is
    read off its outcome. *)
Theorem ScaleWorkers_sends_one_POST (p : string) (n : Z) (s : NetState) :
  known_priority p = true ->
  n <> 0 ->
  NewRequest_error ctx "POST"
    (baseURL c ++ "/api/v1/workers/scale/" ++ p ++ "?count=" ++ itoa n)
  = None ->
  let req :=
    http.mkRequest ctx "POST"
      (baseURL c ++ "/api/v1/workers/scale/" ++ p ++ "?count=" ++ itoa n)
      None [] in
  let out := fst (Do (httpClient c) req (world s)) in
  let w := snd (Do (httpClient c) req (world s)) in
  snd (ScaleWorkers c ctx p n s) = settled s req out w
  /\ requests (snd (ScaleWorkers c ctx p n s)) = (requests s ++ [req])%list
  /\ world (snd (ScaleWorkers c ctx p n s)) = w
  /\ fst (ScaleWorkers c ctx p n s)
     = match out with
       | Ok resp =>
           match fst (parseResponse c resp (Some ScaleWorkersResponse.zero)
                        (after_round_trip s req out w)) with
           | Ok v => Ok (pointee ScaleWorkersResponse.zero v)
           | Err e => Err e
           end
       | Err e => Err (wrapError "request failed" e)
       end.
Proof.
  intros Hp Hn Hreq. cbv zeta. rewrite (ScaleWorkers_accepted p n Hp Hn).
  destruct (roundTripJSON_no_body_run "POST" (scalePath p n)
              ScaleWorkersResponse.zero s Hreq) as [Hst Hres].
  split; [exact Hst|]. rewrite Hst.
  split; [apply settled_requests|].
  split; [apply settled_requests|]. exact Hres.
Qed.

(** X15. Removal is scaling by a negative count on the same endpoint: for
    a known priority and a count [n > 0], once the request can be built
    [RemoveWorkers] calls the transport exactly once, on a POST whose
    query is [count=-n]; the state is the settled state of that round trip
    and a failure of the transport comes back wrapped. *)
Theorem RemoveWorkers_sends_negative_count
    (p : string) (n : Z) (s : NetState) :
  known_priority p = true ->
  0 < n <= int_max ->
  NewRequest_error ctx "POST"
    (baseURL c ++ "/api/v1/workers/scale/" ++ p ++ "?count=-" ++ itoa n)
  = None ->
  let req :=
    http.mkRequest ctx "POST"
      (baseURL c ++ "/api/v1/workers/scale/" ++ p ++ "?count=-" ++ itoa n)
      None [] in
  let out := fst (Do (httpClient c) req (world s)) in
  let w := snd (Do (httpClient c) req (world s)) in
  snd (RemoveWorkers c ctx p n s) = settled s req out w
  /\ requests (snd (RemoveWorkers c ctx p n s)) = (requests s ++ [req])%list
  /\ world (snd (RemoveWorkers c ctx p n s)) = w
  /\ fst (RemoveWorkers c ctx p n s)
     = match out with
       | Ok resp =>
           match fst (parseResponse c resp (Some ScaleWorkersResponse.zero)
                        (after_round_trip s req out w)) with
           | Ok v => Ok (pointee ScaleWorkersResponse.zero v)
           | Err e => Err e
           end
       | Err e => Err (wrapError "request failed" e)
       end.
Proof.
  intros Hp Hn Hreq. cbv zeta. unfold RemoveWorkers.
  destruct (Z.leb_spec n 0); [lia|].
  rewrite (int_neg_positive n Hn).
  assert (Hpath : scalePath p (- n)
                  = "/api/v1/workers/scale/" ++ p ++ "?count=-" ++ itoa n).
  { unfold scalePath. rewrite itoa_opp by lia. reflexivity. }
  rewrite ScaleWorkers_accepted by (auto; lia). rewrite Hpath.
  destruct (roundTripJSON_no_body_run "POST"
              ("/api/v1/workers/scale/" ++ p ++ "?count=-" ++ itoa n)
              ScaleWorkersResponse.zero s Hreq) as [Hst Hres].
  split; [exact Hst|]. rewrite Hst.
  split; [apply settled_requests|].
  split; [apply settled_requests|]. exact Hres.
Qed.

End Scaling.

(** ** The further properties on the test double *)

Lemma validation_error_means_nothing_sent_witness :
  validates_first (CallScaleWorkers "urgent" 1) = true
  /\ snd (call_error (RT := ok200) testClient Background
            (CallScaleWorkers "urgent" 1) (initial ok200 0%nat))
     = initial ok200 0%nat.
Proof.
  split; [reflexivity|].
  apply (validation_error_means_nothing_sent (RT := ok200) testClient
           Background (CallScaleWorkers "urgent" 1) (initial ok200 0%nat)
           _ "priority must be 'low', 'medium', or 'high'" eq_refl eq_refl).
Defined.

Lemma every_error_is_classified_witness :
  classified (wrapError "failed to unmarshal response"
                (foreignError
                   "invalid character looking for beginning of value"))
  = true.
Proof.
  apply (every_error_is_classified (RT := created201) testClient Background
           (CallPostMessage (Some sampleMessage)) (initial created201 0%nat)
           _ _ eq_refl).
Defined.

Lemma any_JSON_call_reports_status_and_raw_body_witness :
  fst (call_error (RT := down500) testClient Background CallRemoveAllWorkers
         (initial down500 0%nat))
  = Some (apiError 500 "Service Unavailable").
Proof.
  apply (any_JSON_call_reports_status_and_raw_body (RT := down500)
           testClient Background CallRemoveAllWorkers (initial down500 0%nat)
           (http.mkRequest Background "POST"
              "http://127.0.0.1:8083/api/v1/workers/remove-all" None [])
           (http.mkResponse 500 (io.mkReader "Service Unavailable" None))
           eq_refl eq_refl eq_refl).
  simpl; lia.
Defined.

Lemma any_call_wraps_transport_failure_witness :
  fst (call_error (RT := unreachable) testClient Background
         CallGetTotalWorkerCount (initial unreachable 0%nat))
  = Some (wrapError "request failed" (foreignError "connection refused"))
  /\ closed (snd (call_error (RT := unreachable) testClient Background
                    CallGetTotalWorkerCount (initial unreachable 0%nat)))
     = 0%nat.
Proof.
  apply (any_call_wraps_transport_failure (RT := unreachable) testClient
           Background CallGetTotalWorkerCount (initial unreachable 0%nat)
           statusRequest (foreignError "connection refused") eq_refl).
Defined.

Lemma PostMessage_decodes_below_400_witness :
  fst (PostMessage (RT := ok200) testClient Background (Some sampleMessage)
         (initial ok200 0%nat))
  = Ok MessageResponse.zero
  /\ fst (PostMessage (RT := created201) testClient Background
            (Some sampleMessage) (initial created201 0%nat))
     = Err (wrapError "failed to unmarshal response"
              (foreignError
                 "invalid character looking for beginning of value")).
Proof.
  split.
  - rewrite (PostMessage_decodes_below_400 (RT := ok200) testClient
               Background sampleMessage "{}"
               (http.mkResponse 200 (io.mkReader "{}" None)) 1%nat
               (initial ok200 0%nat) eq_refl eq_refl eq_refl eq_refl);
      [reflexivity | simpl; lia].
  - rewrite (PostMessage_decodes_below_400 (RT := created201) testClient
               Background sampleMessage "{}"
               (http.mkResponse 201 (io.mkReader "OK" None)) 1%nat
               (initial created201 0%nat) eq_refl eq_refl eq_refl eq_refl);
      [reflexivity | simpl; lia].
Defined.

Lemma unencodable_payload_is_not_sent_witness :
  PostMessage (RT := unencodable) testClient Background (Some sampleMessage)
    (initial unencodable 0%nat)
  = (Err (wrapError "failed to marshal request body"
            (foreignError "json: unsupported type: chan int")),
     initial unencodable 0%nat)
  /\ PostBulkMessages (RT := unencodable) testClient Background
       (Some (BulkMessageRequest.mk [sampleMessage]))
       (initial unencodable 0%nat)
     = (Err (wrapError "failed to marshal request body"
               (foreignError "json: unsupported type: chan int")),
        initial unencodable 0%nat).
Proof.
  destruct (unencodable_payload_is_not_sent (RT := unencodable) testClient
              Background sampleMessage
              (BulkMessageRequest.mk [sampleMessage])
              (foreignError "json: unsupported type: chan int")
              (initial unencodable 0%nat))
    as [H1 H2].
  split.
  - apply H1. reflexivity.
  - apply H2; [reflexivity | discriminate].
Defined.

Lemma GetWorkerCount_known_priority_witness :
  known_priority "medium" = true
  /\ fst (GetWorkerCount (RT := ok200) testClient Background "medium"
            (initial ok200 0%nat))
     = Ok 0
  /\ fst (GetWorkerCount (RT := down500) testClient Background "medium"
            (initial down500 0%nat))
     = Err (apiError 500 "Service Unavailable").
Proof.
  split; [reflexivity|]. split.
  - rewrite (GetWorkerCount_known_priority (RT := ok200) testClient
               Background "medium" (initial ok200 0%nat) eq_refl).
    reflexivity.
  - rewrite (GetWorkerCount_known_priority (RT := down500) testClient
               Background "medium" (initial down500 0%nat) eq_refl).
    reflexivity.
Defined.

Lemma IsHealthy_true_iff_status_200_witness :
  fst (IsHealthy (RT := ok200) testClient Background (initial ok200 0%nat))
  = true
  /\ fst (IsHealthy (RT := created201) testClient Background
            (initial created201 0%nat))
     <> true.
Proof.
  split.
  - apply (IsHealthy_true_iff_status_200 (RT := ok200) testClient Background
             (initial ok200 0%nat)).
    split; [reflexivity|].
    exists (http.mkResponse 200 (io.mkReader "{}" None)), 1%nat.
    split; reflexivity.
  - intro H.
    apply (IsHealthy_true_iff_status_200 (RT := created201) testClient
             Background (initial created201 0%nat)) in H.
    destruct H as (_ & resp & w & Hdo & Hcode).
    injection Hdo as <- _. discriminate Hcode.
Defined.

Lemma ScaleWorkers_sends_one_POST_witness :
  known_priority "low" = true
  /\ ScaleWorkers (RT := ok200) testClient Background "low" (-4)
       (initial ok200 0%nat)
     = (Ok ScaleWorkersResponse.zero,
        mkNetState (RT := ok200) 1%nat
          [mkExchange (RT := ok200)
             (http.mkRequest Background "POST"
                "http://127.0.0.1:8083/api/v1/workers/scale/low?count=-4"
                None [])
             (Ok (http.mkResponse 200 (io.mkReader "{}" None)))]
          1)
  /\ fst (ScaleWorkers (RT := unreachable) testClient Background "low" (-4)
            (initial unreachable 0%nat))
     = Err (wrapError "request failed" (foreignError "connection refused")).
Proof.
  split; [reflexivity|].
  assert (Hn : -4 <> 0) by discriminate.
  destruct (ScaleWorkers_sends_one_POST (RT := ok200) testClient Background
              "low" (-4) (initial ok200 0%nat) eq_refl Hn eq_refl)
    as (Hst & _ & _ & Hres).
  destruct (ScaleWorkers_sends_one_POST (RT := unreachable) testClient
              Background "low" (-4) (initial unreachable 0%nat)
              eq_refl Hn eq_refl)
    as (_ & _ & _ & Hres').
  split.
  - apply injective_projections; [rewrite Hres | rewrite Hst]; reflexivity.
  - rewrite Hres'. reflexivity.
Defined.

Lemma RemoveWorkers_sends_negative_count_witness :
  0 < 3 <= int_max
  /\ RemoveWorkers (RT := ok200) testClient Background "high" 3
       (initial ok200 0%nat)
     = (Ok ScaleWorkersResponse.zero,
        mkNetState (RT := ok200) 1%nat
          [mkExchange (RT := ok200)
             (http.mkRequest Background "POST"
                "http://127.0.0.1:8083/api/v1/workers/scale/high?count=-3"
                None [])
             (Ok (http.mkResponse 200 (io.mkReader "{}" None)))]
          1).
Proof.
  assert (H3 : 0 < 3 <= int_max) by (unfold int_max; lia).
  split; [exact H3|].
  destruct (RemoveWorkers_sends_negative_count (RT := ok200) testClient
              Background "high" 3 (initial ok200 0%nat) eq_refl H3 eq_refl)
    as (Hst & _ & _ & Hres).
  apply injective_projections; [rewrite Hres | rewrite Hst]; reflexivity.
Defined.

(** With a nil context the request cannot be built:
    [ScaleWorkers c nil "high" 2] issues no request at all and the world
    does not move. *)
Lemma ScaleWorkers_high_2_nil_context_sends_nothing :
  ScaleWorkers (RT := ok200) testClient None "high" 2 (initial ok200 0%nat)
  = (Err (wrapError "failed to create request"
            (foreignError "net/http: nil Context")),
     initial ok200 0%nat)
  /\ requests (RT := ok200)
       (snd (ScaleWorkers (RT := ok200) testClient None "high" 2
               (initial ok200 0%nat)))
     = []
  /\ requests (RT := ok200)
       (snd (ScaleWorkers (RT := ok200) testClient None "high" 2
               (initial ok200 0%nat)))
     <> [http.mkRequest None "POST"
           "http://127.0.0.1:8083/api/v1/workers/scale/high?count=2"
           None []].
Proof. repeat split. discriminate. Qed.

Lemma ScaleWorkers_high_2_one_round_trip_witness :
  ScaleWorkers (RT := ok200) testClient Background "high" 2
    (initial ok200 0%nat)
  = (Ok ScaleWorkersResponse.zero,
     mkNetState (RT := ok200) 1%nat
       [mkExchange (RT := ok200)
          (http.mkRequest Background "POST"
             "http://127.0.0.1:8083/api/v1/workers/scale/high?count=2"
             None [])
          (Ok (http.mkResponse 200 (io.mkReader "{}" None)))]
       1)
  /\ requests (RT := ok200)
       (snd (ScaleWorkers (RT := ok200) testClient Background "high" 2
               (initial ok200 0%nat)))
     = [http.mkRequest Background "POST"
          "http://127.0.0.1:8083/api/v1/workers/scale/high?count=2" None []]
  /\ world (RT := ok200)
       (snd (ScaleWorkers (RT := ok200) testClient Background "high" 2
               (initial ok200 0%nat)))
     = 1%nat
  /\ ScaleWorkers (RT := ok200) testClient None "high" 2
       (initial ok200 0%nat)
     = (Err (wrapError "failed to create request"
               (foreignError "net/http: nil Context")),
        initial ok200 0%nat).
Proof.
  destruct (ScaleWorkers_high_2_one_round_trip (RT := ok200) testClient
              Background (initial ok200 0%nat))
    as [_ Hsent].
  destruct (ScaleWorkers_high_2_one_round_trip (RT := ok200) testClient
              None (initial ok200 0%nat))
    as [Hnil _].
  destruct (Hsent eq_refl) as (Hst & Hreqs & Hw & Hres).
  split.
  - apply injective_projections; [rewrite Hres | rewrite Hst]; reflexivity.
  - split; [rewrite Hreqs; reflexivity|].
    split; [rewrite Hw; reflexivity|].
    exact (Hnil (foreignError "net/http: nil Context") eq_refl).
Defined.

Lemma parseResponse_read_failure_witness :
  parseResponse (RT := cutOff500) (H := stubUnmarshal) testClient
    (http.mkResponse 200
       (io.mkReader "{" (Some (foreignError "unexpected EOF"))))
    (Some MessageResponse.zero) (initial cutOff500 0%nat)
  = (Err (wrapError "failed to read response body"
            (foreignError "unexpected EOF")),
     Close (RT := cutOff500) (initial cutOff500 0%nat)).
Proof.
  apply (parseResponse_read_failure (RT := cutOff500) (H := stubUnmarshal)
           testClient
           (http.mkResponse 200
              (io.mkReader "{" (Some (foreignError "unexpected EOF"))))
           (Some MessageResponse.zero) (initial cutOff500 0%nat)
           (foreignError "unexpected EOF") eq_refl).
Defined.
